(** * waguri-fca: profileGuard, lockProfile and reactPost

    A shallow embedding of the three client operations of the repository
    (the legacy and the reworked [profileGuard], [lockProfile] and
    [reactPost]) and the properties their specification states.

    Conventions of the embedding.
    - A JavaScript string is a Rocq [string]: the sequence of bytes of its
      UTF-8 encoding.  [toUpperCase] is computed on ASCII strings; on a
      string with other characters it is what the runtime answers
      ([upper_text]), about which nothing is assumed.
    - A JavaScript number is an integer, a [Z].  Its text is its decimal
      form up to [Number.MAX_SAFE_INTEGER]; beyond, it is what the runtime
      answers ([number_text]).
    - [value] holds data (primitives, arrays, plain objects, [Error]
      objects).  Functions appear only as arguments ([arg]).  The reaction
      type of reactPost may also be any object with a callable
      [toUpperCase] of its own ([reaction_arg]).
    - A function of the caller is opaque: calling it records the call, and
      it returns or throws what the environment says ([cb_run]) for the
      calls made before and the arguments.  What it returns is data: where
      a promise is said to be fulfilled with the value a function returned,
      read resolved with it when that value is itself a promise.
    - The transport [defaultFuncs.post(...)] followed by
      [utils.parseAndCheckLogin] is the oracle [respond]: the decoded
      response, or the error the chain rejects with.  [Date.now()],
      [Math.random()], [utils.generateOfflineThreadingID()] and the cookie
      jar are read from the environment as well. *)

From Stdlib Require Import String Ascii List ZArith NArith Lia Bool.
From Stdlib Require Import DecimalString.
Import ListNotations.
Local Open Scope string_scope.

(** ** Values *)

#[local] Set Warnings "-register-all".

Inductive value : Type :=
| VUndefined
| VNull
| VBool (b : bool)
| VNum (n : Z)
| VStr (s : string)
| VArr (elems : list value)
| VObj (props : list (string * value))
| VError (name : string) (message : string).

Inductive fun_kind : Type := FkFunction | FkAsyncFunction.

(** What a caller may put in an argument slot: data, or one of its own
    functions (identified by a number). *)
Inductive arg : Type :=
| AVal (v : value)
| AFun (k : fun_kind) (id : nat).

(** How a call ends: with a value, or with an exception. *)
Inductive outcome (A : Type) : Type :=
| Done (a : A)
| Throw (e : value).
Arguments Done {A} a.
Arguments Throw {A} e.

(** What a caller may pass as the reaction type of reactPost: an argument
    as above, which has a [toUpperCase] method only when it is a string; or
    any other value with a callable [toUpperCase] of its own (a String
    object, an object or function with such a property), known by what the
    call of that method returns or throws.  Such a value is truthy. *)
Inductive reaction_arg : Type :=
| RArg (a : arg)
| RObject (upper : outcome value).

Coercion RArg : arg >-> reaction_arg.

Definition truthy (v : value) : bool :=
  match v with
  | VUndefined | VNull => false
  | VBool b => b
  | VNum n => negb (n =? 0)%Z
  | VStr s => negb (s =? "")
  | VArr _ | VObj _ | VError _ _ => true
  end.

Definition truthy_arg (a : arg) : bool :=
  match a with
  | AVal v => truthy v
  | AFun _ _ => true
  end.

Definition truthy_reaction (r : reaction_arg) : bool :=
  match r with
  | RArg a => truthy_arg a
  | RObject _ => true
  end.

(** [typeof v] *)
Definition typeof (v : value) : string :=
  match v with
  | VUndefined => "undefined"
  | VNull => "object"
  | VBool _ => "boolean"
  | VNum _ => "number"
  | VStr _ => "string"
  | VArr _ | VObj _ | VError _ _ => "object"
  end.

(** Modelled from the spec: [utils.getType] lives in the utils module, which
    is not among the sources.  The operations use it for the "is this
    argument a function" and "is this argument a boolean" tests; it is the
    class tag of the value, [Object.prototype.toString.call(v).slice(8, -1)]. *)
Definition getType (a : arg) : string :=
  match a with
  | AFun FkFunction _ => "Function"
  | AFun FkAsyncFunction _ => "AsyncFunction"
  | AVal VUndefined => "Undefined"
  | AVal VNull => "Null"
  | AVal (VBool _) => "Boolean"
  | AVal (VNum _) => "Number"
  | AVal (VStr _) => "String"
  | AVal (VArr _) => "Array"
  | AVal (VObj _) => "Object"
  | AVal (VError _ _) => "Error"
  end.

(** ** Strings *)

Definition upper_ascii (c : ascii) : ascii :=
  let n := N_of_ascii c in
  if ((97 <=? n) && (n <=? 122))%N then ascii_of_N (n - 32) else c.

(** [s.toUpperCase()] for a string of ASCII characters. *)
Fixpoint ascii_upper (s : string) : string :=
  match s with
  | EmptyString => EmptyString
  | String c r => String (upper_ascii c) (ascii_upper r)
  end.

Fixpoint is_ascii (s : string) : bool :=
  match s with
  | EmptyString => true
  | String c r => (N_of_ascii c <? 128)%N && is_ascii r
  end.

(** What the embedding does not compute and takes from the JavaScript
    runtime: the text of a number beyond the safe integers, and the
    upper-case form of a string that is not ASCII. *)
Record runtime : Type := mkRuntime {
  number_text : Z -> string;
  upper_text : string -> string
}.

(** [s.toUpperCase()] *)
Definition toUpperCase (rt : runtime) (s : string) : string :=
  if is_ascii s then ascii_upper s else upper_text rt s.

(** [parts.join(sep)] *)
Fixpoint join (sep : string) (parts : list string) : string :=
  match parts with
  | [] => ""
  | [p] => p
  | p :: rest => p ++ sep ++ join sep rest
  end.

Definition string_of_Z (n : Z) : string := NilZero.string_of_int (Z.to_int n).

(** [Number.isSafeInteger(n)] *)
Definition safe_integer (n : Z) : bool :=
  (Z.abs n <=? 9007199254740991)%Z.

(** [String(n)] for a number. *)
Definition number_to_string (rt : runtime) (n : Z) : string :=
  if safe_integer n then string_of_Z n else number_text rt n.

(** The text after the first occurrence of [sep] in [s], if there is one. *)
Fixpoint after_first (sep s : string) : option string :=
  if prefix sep s then Some (substring (String.length sep) (String.length s - String.length sep) s)
  else match s with
       | EmptyString => None
       | String _ r => after_first sep r
       end.

(** The text before the first occurrence of [sep] in [s] (all of [s] when
    there is none): [s.split(sep)[0]] for a non-empty [sep]. *)
Fixpoint before_first (sep s : string) : string :=
  if prefix sep s then ""
  else match s with
       | EmptyString => ""
       | String c r => String c (before_first sep r)
       end.

(** [s.includes(sep)] *)
Definition includes (sep s : string) : bool :=
  match after_first sep s with Some _ => true | None => false end.

(** ** Property access and conversions *)

Fixpoint lookup (k : string) (props : list (string * value)) : option value :=
  match props with
  | [] => None
  | (k', v) :: rest => if k' =? k then Some v else lookup k rest
  end.

(** [v[k]] for a property name that is not an array index; [None] is the
    TypeError of reading a property of [undefined] or [null]. *)
Definition get_prop (v : value) (k : string) : option value :=
  match v with
  | VUndefined | VNull => None
  | VObj props =>
      Some (match lookup k props with Some x => x | None => VUndefined end)
  | VError name message =>
      Some (if k =? "message" then VStr message
            else if k =? "name" then VStr name else VUndefined)
  | VBool _ | VNum _ | VStr _ | VArr _ => Some VUndefined
  end.

(** [String(v)], also what a template literal does to [v]. *)
Fixpoint to_string (rt : runtime) (v : value) {struct v} : string :=
  match v with
  | VUndefined => "undefined"
  | VNull => "null"
  | VBool true => "true"
  | VBool false => "false"
  | VNum n => number_to_string rt n
  | VStr s => s
  | VArr elems =>
      join ","
        (map (fun e => match e with
                       | VUndefined | VNull => ""
                       | _ => to_string rt e
                       end) elems)
  | VObj _ => "[object Object]"
  | VError name message =>
      if message =? "" then name
      else if name =? "" then message
      else name ++ ": " ++ message
  end.

Definition hex_digit (n : N) : ascii :=
  ascii_of_N (if (n <? 10)%N then 48 + n else 87 + n).

(** One character inside a JSON string literal. *)
Definition json_escape_char (c : ascii) : string :=
  let n := N_of_ascii c in
  if (n =? 34)%N then "\" ++ String c ""
  else if (n =? 92)%N then "\\"
  else if (n =? 8)%N then "\b"
  else if (n =? 12)%N then "\f"
  else if (n =? 10)%N then "\n"
  else if (n =? 13)%N then "\r"
  else if (n =? 9)%N then "\t"
  else if (n <? 32)%N then
    "\u00" ++ String (hex_digit (n / 16)) (String (hex_digit (n mod 16)) "")
  else String c "".

Fixpoint json_escape (s : string) : string :=
  match s with
  | EmptyString => ""
  | String c r => json_escape_char c ++ json_escape r
  end.

Definition json_quote (s : string) : string :=
  String (ascii_of_N 34) (json_escape s) ++ String (ascii_of_N 34) "".

(** [JSON.stringify(v)]; [None] is [undefined]. *)
Fixpoint JSON_stringify (rt : runtime) (v : value) {struct v}
  : option string :=
  match v with
  | VUndefined => None
  | VNull => Some "null"
  | VBool true => Some "true"
  | VBool false => Some "false"
  | VNum n => Some (number_to_string rt n)
  | VStr s => Some (json_quote s)
  | VArr elems =>
      Some ("[" ++ join ","
              (map (fun e => match JSON_stringify rt e with
                             | Some t => t
                             | None => "null"
                             end) elems) ++ "]")
  | VObj props =>
      let fix members (ps : list (string * value)) : list string :=
        match ps with
        | [] => []
        | (k, x) :: rest =>
            match JSON_stringify rt x with
            | Some t => (json_quote k ++ ":" ++ t) :: members rest
            | None => members rest
            end
        end in
      Some ("{" ++ join "," (members props) ++ "}")
  | VError _ _ => Some "{}"
  end.

(** A possibly [undefined] string as a value. *)
Definition of_option_string (o : option string) : value :=
  match o with Some s => VStr s | None => VUndefined end.

(** [new Error(m)]: the message is [String(m)], empty for [undefined]. *)
Definition new_Error (rt : runtime) (m : value) : value :=
  VError "Error" (match m with VUndefined => "" | _ => to_string rt m end).

(** ** Base64, as [Buffer.from(s).toString('base64')] *)

Definition base64_alphabet : string :=
  "ABCDEFGHIJKLMNOPQRSTUVWXYZabcdefghijklmnopqrstuvwxyz0123456789+/".

Definition b64_char (n : N) : ascii :=
  match get (N.to_nat n) base64_alphabet with
  | Some c => c
  | None => "="%char
  end.

(** The four digits of a group of three bytes [a], [b], [c] are
    [a >> 2], [sextet2 a b], [sextet3 b c] and [c & 63]; a byte missing at
    the end of the input counts as zero and its digits are padding. *)
Definition sextet2 (a b : N) : N :=
  N.lor (N.shiftl (N.land a 3) 4) (N.shiftr b 4).

Definition sextet3 (b c : N) : N :=
  N.lor (N.shiftl (N.land b 15) 2) (N.shiftr c 6).

Fixpoint b64_encode_bytes (bs : list N) : list ascii :=
  match bs with
  | [] => []
  | [a] =>
      [b64_char (N.shiftr a 2); b64_char (sextet2 a 0); "="%char; "="%char]
  | [a; b] =>
      [b64_char (N.shiftr a 2); b64_char (sextet2 a b);
       b64_char (sextet3 b 0); "="%char]
  | a :: b :: c :: rest =>
      b64_char (N.shiftr a 2)
      :: b64_char (sextet2 a b)
      :: b64_char (sextet3 b c)
      :: b64_char (N.land c 63)
      :: b64_encode_bytes rest
  end.

Definition base64_encode (s : string) : string :=
  string_of_list_ascii
    (b64_encode_bytes (map N_of_ascii (list_ascii_of_string s))).

(** The inverse direction: the value of a base64 digit, and the decoder of
    padded base64 text ([Buffer.from(t, 'base64')] on canonical input). *)
Definition b64_value (c : ascii) : option N :=
  let n := N_of_ascii c in
  if ((65 <=? n) && (n <=? 90))%N then Some (n - 65)%N
  else if ((97 <=? n) && (n <=? 122))%N then Some (n - 71)%N
  else if ((48 <=? n) && (n <=? 57))%N then Some (n + 4)%N
  else if (n =? 43)%N then Some 62%N
  else if (n =? 47)%N then Some 63%N
  else None.

Definition is_pad (c : ascii) : bool := (N_of_ascii c =? 61)%N.

Fixpoint b64_decode_chars (cs : list ascii) : option (list N) :=
  match cs with
  | [] => Some []
  | c1 :: c2 :: c3 :: c4 :: rest =>
      match b64_value c1, b64_value c2 with
      | Some s1, Some s2 =>
          let b1 := N.lor (N.shiftl s1 2) (N.shiftr s2 4) in
          if is_pad c3 then
            match rest with
            | [] => if is_pad c4 then Some [b1] else None
            | _ => None
            end
          else
            match b64_value c3 with
            | None => None
            | Some s3 =>
                let b2 := N.lor (N.shiftl (N.land s2 15) 4) (N.shiftr s3 2) in
                if is_pad c4 then
                  match rest with
                  | [] => Some [b1; b2]
                  | _ => None
                  end
                else
                  match b64_value c4, b64_decode_chars rest with
                  | Some s4, Some tl =>
                      Some (b1 :: b2 :: N.lor (N.shiftl (N.land s3 3) 6) s4 :: tl)
                  | _, _ => None
                  end
            end
      | _, _ => None
      end
  | _ => None
  end.

Definition base64_decode (t : string) : option string :=
  match b64_decode_chars (list_ascii_of_string t) with
  | Some bs => Some (string_of_list_ascii (map ascii_of_N bs))
  | None => None
  end.

(** ** The session, the environment and the observable effects *)

(** One call of [defaultFuncs.post(url, ctx.jar, form, ...)].  [req_headers]
    is [None] when the call passes three arguments, and the custom headers
    when it passes [{}] and a header object after the form. *)
Record request : Type := mkRequest {
  req_url : string;
  req_form : list (string * value);
  req_headers : option (list (string * string))
}.

(** What [post(...).then(utils.parseAndCheckLogin(ctx, defaultFuncs))]
    settles with. *)
Inductive reply : Type :=
| Resolved (response : value)
| Failed (error : value).

Record context : Type := mkContext {
  ctx_userID : value;
  (** [cookie.cookieString()] of every cookie of [ctx.jar] for the site *)
  ctx_jar : list string
}.

Record environment : Type := mkEnvironment {
  respond : request -> reply;
  (** [Date.now()] *)
  now : Z;
  (** [Math.floor(Math.random() * 1000000)] *)
  random : Z;
  (** the n-th result of [utils.generateOfflineThreadingID()] in a call *)
  threading_id : nat -> string;
  (** what the caller's function [id] does when it is called with [args]
      after the calls [before]: it returns a value or throws *)
  cb_run : nat -> list (nat * list value) -> list value -> outcome value;
  (** the JavaScript runtime *)
  engine : runtime
}.

Inductive log_entry : Type :=
| LogError (tag : string) (err : value)
| LogInfo (tag : string) (msg : string).

Inductive promise_state : Type :=
| Pending
| Fulfilled (v : value)
| Rejected (e : value).

Record world : Type := mkWorld {
  logs : list log_entry;
  posts : list request;
  (** calls of the caller's functions: which one, with which arguments *)
  calls : list (nat * list value);
  (** the state of the internal [returnPromise] *)
  returnPromise : promise_state;
  (** how many threading identifiers were drawn *)
  drawn : nat
}.

Definition init_world : world := mkWorld [] [] [] Pending 0.

(** ** A state and exception monad for the bodies *)

Definition M (A : Type) : Type := world -> outcome A * world.

Definition ret {A} (a : A) : M A := fun w => (Done a, w).

Definition bind {A B} (m : M A) (k : A -> M B) : M B :=
  fun w =>
    match m w with
    | (Done a, w') => k a w'
    | (Throw e, w') => (Throw e, w')
    end.

Definition throw {A} (e : value) : M A := fun w => (Throw e, w).

(** [try { m } catch (error) { handler(error) }] *)
Definition try_catch {A} (m : M A) (handler : value -> M A) : M A :=
  fun w =>
    match m w with
    | (Done a, w') => (Done a, w')
    | (Throw e, w') => handler e w'
    end.

Declare Scope js_scope.
Delimit Scope js_scope with js.
Notation "x <- m ;; k" := (bind m (fun x => k))
  (at level 61, m at next level, right associativity) : js_scope.
Notation "m ;; k" := (bind m (fun _ => k))
  (at level 61, right associativity) : js_scope.
Local Open Scope js_scope.

Definition type_error (msg : string) : value := VError "TypeError" msg.

(** [v[k]] as a statement: reading a property of [undefined] or [null]
    throws. *)
Definition prop (v : value) (k : string) : M value :=
  match get_prop v k with
  | Some x => ret x
  | None =>
      throw (type_error ("Cannot read properties of "
                         ++ match v with VNull => "null" | _ => "undefined" end
                         ++ " (reading '" ++ k ++ "')"))
  end.

(** [utils.error(tag, err)] and [utils.log(tag, msg)]: the utils module is
    not among the sources; a call leaves one entry in the diagnostic log. *)
Definition utils_error (tag : string) (err : value) : M unit :=
  fun w => (Done tt, mkWorld (logs w ++ [LogError tag err]) (posts w) (calls w)
                       (returnPromise w) (drawn w)).

Definition utils_log (tag msg : string) : M unit :=
  fun w => (Done tt, mkWorld (logs w ++ [LogInfo tag msg]) (posts w) (calls w)
                       (returnPromise w) (drawn w)).

(** A promise settles once. *)
Definition settle (p : promise_state) : M unit :=
  fun w => (Done tt, mkWorld (logs w) (posts w) (calls w)
                       (match returnPromise w with
                        | Pending => p
                        | s => s
                        end) (drawn w)).

(** The callback a body ends up with: the caller's argument, the default
    that settles [returnPromise], or the legacy default [() => {}]. *)
Inductive callback : Type :=
| CbGiven (a : arg)
| CbDefault
| CbNoop.

(** [callback = callback || function (err, data) { ... }] *)
Definition or_default (a : arg) : callback :=
  if truthy_arg a then CbGiven a else CbDefault.

Definition nth_arg (n : nat) (args : list value) : value :=
  nth n args VUndefined.

(** [callback(args...)] *)
Definition invoke
    (run_cb : nat -> list (nat * list value) -> list value -> outcome value)
    (cb : callback) (args : list value) : M value :=
  match cb with
  | CbGiven (AFun _ id) =>
      fun w => (run_cb id (calls w) args,
                mkWorld (logs w) (posts w) (calls w ++ [(id, args)])
                  (returnPromise w) (drawn w))
  | CbGiven (AVal _) => throw (type_error "callback is not a function")
  | CbDefault =>
      (* if (err) return rejectFunc(err); resolveFunc(data); *)
      if truthy (nth_arg 0 args)
      then settle (Rejected (nth_arg 0 args)) ;; ret VUndefined
      else settle (Fulfilled (nth_arg 1 args)) ;; ret VUndefined
  | CbNoop => ret VUndefined
  end.

(** What a body returns: a plain value, or the internal [returnPromise]. *)
Inductive returned : Type :=
| RetValue (v : value)
| RetPromise.

(** The promise an [async function] hands to its caller. *)
Definition async (body : M returned) : M promise_state :=
  fun w =>
    match body w with
    | (Done (RetValue v), w') => (Done (Fulfilled v), w')
    | (Done RetPromise, w') => (Done (returnPromise w'), w')
    | (Throw e, w') => (Done (Rejected e), w')
    end.

(** The promise of a [.then(...).catch(...)] chain. *)
Definition chain (m : M value) : M promise_state :=
  fun w =>
    match m w with
    | (Done v, w') => (Done (Fulfilled v), w')
    | (Throw e, w') => (Done (Rejected e), w')
    end.

(** How a call ends for its caller: with a promise, or with an exception
    thrown at the call. *)
Inductive completion : Type :=
| Returns (p : promise_state)
| Raises (e : value).

Record result : Type := mkResult {
  completed : completion;
  final : world
}.

Definition run (m : M promise_state) : result :=
  match m init_world with
  | (Done p, w) => mkResult (Returns p) w
  | (Throw e, w) => mkResult (Raises e) w
  end.

Definition js_or (a b : value) : value := if truthy a then a else b.

Definition is_function (a : arg) : bool :=
  (getType a =? "Function") || (getType a =? "AsyncFunction").

(** The data in an argument slot; a function never reaches it (the bodies
    move a function out of the slot first). *)
Definition as_value (a : arg) : value :=
  match a with
  | AVal v => v
  | AFun _ _ => VUndefined
  end.

(** ** The operations *)

Definition graphql_url : string := "https://www.facebook.com/api/graphql/".

(** [REACTION_TYPES] of reactPost, in the order of the object literal. *)
Definition REACTION_TYPES : list (string * value) :=
  [("LIKE", VNum 1); ("LOVE", VNum 2); ("CARE", VNum 16); ("HAHA", VNum 4);
   ("WOW", VNum 3); ("SAD", VNum 7); ("ANGRY", VNum 8); ("NONE", VNum 0)].

(** [Object.keys(o)] *)
Definition keys (o : list (string * value)) : list string := map fst o.

(** [o.hasOwnProperty(k)] *)
Definition hasOwnProperty (o : list (string * value)) (k : string) : bool :=
  match lookup k o with Some _ => true | None => false end.

(** [o[k]] *)
Definition obj_get (o : list (string * value)) (k : string) : value :=
  match lookup k o with Some v => v | None => VUndefined end.

(** [reactionType.toUpperCase()]: the method of a string, the method the
    value brings along, or the TypeError of calling what is not there. *)
Definition call_toUpperCase (rt : runtime) (reactionType : reaction_arg)
  : M value :=
  match reactionType with
  | RArg (AVal (VStr s)) => ret (VStr (toUpperCase rt s))
  | RArg _ => throw (type_error "reactionType.toUpperCase is not a function")
  | RObject (Done v) => ret v
  | RObject (Throw e) => throw e
  end.

(** The access token the reworked profileGuard looks for in the cookies:
    the first cookie whose text includes [access_token=] decides. *)
Fixpoint find_access_token (cookies : list string) : option string :=
  match cookies with
  | [] => None
  | cookieStr :: rest =>
      if includes "access_token=" cookieStr then
        match after_first "access_token=" cookieStr with
        | Some tl =>
            (* cookieStr.split('access_token=')[1].split(';')[0] *)
            Some (before_first ";" (before_first "access_token=" tl))
        | None => None
        end
      else find_access_token rest
  end.

Section Session.

Variable ctx : context.
Variable env : environment.

(** [utils.generateOfflineThreadingID()] *)
Definition generateOfflineThreadingID : M string :=
  fun w => (Done (threading_id env (drawn w)),
            mkWorld (logs w) (posts w) (calls w) (returnPromise w)
              (S (drawn w))).

(** [await defaultFuncs.post(...).then(utils.parseAndCheckLogin(...))] *)
Definition post (r : request) : M value :=
  fun w =>
    let w' := mkWorld (logs w) (posts w ++ [r]) (calls w) (returnPromise w)
                (drawn w) in
    match respond env r with
    | Resolved response => (Done response, w')
    | Failed error => (Throw error, w')
    end.

Definition call (cb : callback) (args : list value) : M value :=
  invoke (cb_run env) cb args.

(** [if (response.error || response.errors) throw new Error(...)] *)
Definition check_response (response : value) : M unit :=
  error <- prop response "error" ;;
  errors <- prop response "errors" ;;
  if truthy (js_or error errors)
  then throw (new_Error (engine env)
                (if truthy error then error
                 else of_option_string (JSON_stringify (engine env) errors)))
  else ret tt.

(** *** reactPost *)

Definition reactPost_variables (postID : value) (reactionValue : value)
    (session_id client_mutation_id : string) : value :=
  VObj [("input", VObj [
    ("attribution_id_v2",
       VStr ("ProfileCometTimelineListViewRoot.react,comet.profile.timeline.list,unexpected,"
             ++ number_to_string (engine env) (now env) ++ ","
             ++ number_to_string (engine env) (random env) ++ ","
             ++ to_string (engine env) (ctx_userID ctx) ++ ",,"));
    ("feedback_id",
       VStr (base64_encode ("feedback:" ++ to_string (engine env) postID)));
    ("feedback_reaction", reactionValue);
    ("feedback_source", VStr "PROFILE");
    ("is_tracking_encrypted", VBool false);
    ("tracking", VArr []);
    ("session_id", VStr session_id);
    ("actor_id", ctx_userID ctx);
    ("client_mutation_id", VStr client_mutation_id)])].

Definition reactPost_form (variables : value) : list (string * value) :=
  [("fb_api_caller_class", VStr "RelayModern");
   ("fb_api_req_friendly_name", VStr "CometUFIFeedbackReactMutation");
   ("variables", of_option_string (JSON_stringify (engine env) variables));
   ("server_timestamps", VBool true);
   ("doc_id", VStr "5803809346330346")].

Definition is_zero (v : value) : bool :=
  match v with VNum 0 => true | _ => false end.

Definition reactPost_result (postID : value) (normalizedReaction : value)
    (reactionValue : value) : value :=
  VObj [("success", VBool true);
        ("postID", postID);
        ("reaction", normalizedReaction);
        ("reactionValue", reactionValue);
        ("message",
           VStr (if is_zero reactionValue
                 then "Reaction removed successfully"
                 else "Reacted with "
                      ++ to_string (engine env) normalizedReaction
                      ++ " successfully"))].

Definition reactPost_body (postID : value) (reactionType : reaction_arg)
    (callback : arg) : M returned :=
  let callback := or_default callback in
  if negb (truthy postID) then
    let error :=
      new_Error (engine env) (VStr "reactPost: Post ID is required") in
    utils_error "reactPost" error ;;
    v <- call callback [error] ;; ret (RetValue v)
  else if negb (truthy_reaction reactionType) then
    let error :=
      new_Error (engine env)
        (VStr "reactPost: Reaction type is required") in
    utils_error "reactPost" error ;;
    v <- call callback [error] ;; ret (RetValue v)
  else
    normalizedReaction <- call_toUpperCase (engine env) reactionType ;;
    (* a property name is the text of the value given as key *)
    let key := to_string (engine env) normalizedReaction in
    if negb (hasOwnProperty REACTION_TYPES key) then
      let error :=
        new_Error (engine env)
          (VStr ("reactPost: Invalid reaction type. Must be one of: "
                 ++ join ", " (keys REACTION_TYPES))) in
      utils_error "reactPost" error ;;
      v <- call callback [error] ;; ret (RetValue v)
    else
      let reactionValue := obj_get REACTION_TYPES key in
      try_catch
        (session_id <- generateOfflineThreadingID ;;
         client_mutation_id <- generateOfflineThreadingID ;;
         let variables :=
           reactPost_variables postID reactionValue session_id
             client_mutation_id in
         let form := reactPost_form variables in
         utils_log "reactPost"
           ((if is_zero reactionValue then "Removing reaction from"
             else "Adding " ++ to_string (engine env) normalizedReaction
                  ++ " to")
            ++ " post " ++ to_string (engine env) postID) ;;
         response <- post (mkRequest graphql_url form None) ;;
         check_response response ;;
         let result :=
           reactPost_result postID normalizedReaction reactionValue in
         utils_log "reactPost"
           (to_string (engine env) (obj_get (match result with
                              | VObj ps => ps
                              | _ => []
                              end) "message")) ;;
         call callback [VNull; result] ;;
         ret tt)
        (fun error =>
           utils_error "reactPost" error ;;
           call callback [error] ;;
           ret tt) ;;
      ret RetPromise.

Definition reactPost (postID : value) (reactionType : reaction_arg)
    (callback : arg) : result :=
  run (async (reactPost_body postID reactionType callback)).

(** *** profileGuard, reworked *)

(** [if (getType(userID) is a function) { callback = userID; userID = null }] *)
Definition optional_parameters (userID callback : arg) : value * arg :=
  if is_function userID then (VNull, userID)
  else (as_value userID, callback).

Definition profileGuard_form (enable targetUserID : value)
    (client_mutation_id : string) : list (string * value) :=
  [("variables",
      of_option_string
        (JSON_stringify (engine env)
           (VObj [("0", VObj [("is_shielded", enable);
                              ("actor_id", targetUserID);
                              ("client_mutation_id",
                                 VStr client_mutation_id)])])));
   ("doc_id", VStr "1477043292367183")].

Definition profileGuard_headers : list (string * string) :=
  match find_access_token (ctx_jar ctx) with
  | Some accessToken =>
      if accessToken =? "" then []
      else [("Authorization", "OAuth " ++ accessToken)]
  | None => []
  end.

Definition profileGuard_result (enable targetUserID : value) : value :=
  VObj [("success", VBool true);
        ("enabled", enable);
        ("userID", targetUserID);
        ("message",
           VStr ("Profile picture guard "
                 ++ (if truthy enable then "enabled" else "disabled")
                 ++ " successfully"))].

Definition profileGuard_body (enable : value) (userID callback : arg)
  : M returned :=
  let '(userID, callback) := optional_parameters userID callback in
  let callback := or_default callback in
  if negb (typeof enable =? "boolean") then
    let error :=
      new_Error (engine env)
        (VStr "profileGuard: First parameter must be a boolean (true to enable, false to disable)") in
    utils_error "profileGuard" error ;;
    v <- call callback [error] ;; ret (RetValue v)
  else
    let targetUserID := js_or userID (ctx_userID ctx) in
    if negb (truthy targetUserID) then
      let error :=
        new_Error (engine env)
          (VStr "profileGuard: User ID not found. Please ensure you are logged in.") in
      utils_error "profileGuard" error ;;
      v <- call callback [error] ;; ret (RetValue v)
    else
      try_catch
        (client_mutation_id <- generateOfflineThreadingID ;;
         let form :=
           profileGuard_form enable targetUserID client_mutation_id in
         let customHeader := profileGuard_headers in
         utils_log "profileGuard"
           ((if truthy enable then "Enabling" else "Disabling")
            ++ " profile picture guard for user "
            ++ to_string (engine env) targetUserID) ;;
         response <- post (mkRequest "https://graph.facebook.com/graphql"
                             form (Some customHeader)) ;;
         check_response response ;;
         let result := profileGuard_result enable targetUserID in
         utils_log "profileGuard"
           (to_string (engine env) (obj_get (match result with
                              | VObj ps => ps
                              | _ => []
                              end) "message")) ;;
         call callback [VNull; result] ;;
         ret tt)
        (fun error =>
           utils_error "profileGuard" error ;;
           call callback [error] ;;
           ret tt) ;;
      ret RetPromise.

Definition profileGuard (enable : value) (userID callback : arg) : result :=
  run (async (profileGuard_body enable userID callback)).

(** *** lockProfile *)

Definition lockProfile_variables (enable targetUserID : value)
    (client_mutation_id : string) : value :=
  VObj [("input", VObj [("is_locked", enable);
                        ("user_id", targetUserID);
                        ("actor_id", ctx_userID ctx);
                        ("client_mutation_id", VStr client_mutation_id)])].

Definition lockProfile_form (enable targetUserID : value)
    (client_mutation_id : string) : list (string * value) :=
  [("fb_api_caller_class", VStr "RelayModern");
   ("fb_api_req_friendly_name", VStr "ProfileCometSetProfileLockMutation");
   ("variables",
      of_option_string
        (JSON_stringify (engine env)
           (lockProfile_variables enable targetUserID client_mutation_id)));
   ("server_timestamps", VBool true);
   ("doc_id", VStr "5552698734782825")].

Definition lockProfile_result (enable targetUserID : value) : value :=
  VObj [("success", VBool true);
        ("locked", enable);
        ("userID", targetUserID);
        ("message",
           VStr ("Profile " ++ (if truthy enable then "locked" else "unlocked")
                 ++ " successfully"));
        ("note",
           VStr (if truthy enable
                 then "Your profile is now locked. Only friends can see your posts and photos."
                 else "Your profile is now unlocked. Your privacy settings control who can see your content."))].

Definition lockProfile_body (enable : value) (userID callback : arg)
  : M returned :=
  let '(userID, callback) := optional_parameters userID callback in
  let callback := or_default callback in
  if negb (typeof enable =? "boolean") then
    let error :=
      new_Error (engine env)
        (VStr "lockProfile: First parameter must be a boolean (true to lock, false to unlock)") in
    utils_error "lockProfile" error ;;
    v <- call callback [error] ;; ret (RetValue v)
  else
    let targetUserID := js_or userID (ctx_userID ctx) in
    if negb (truthy targetUserID) then
      let error :=
        new_Error (engine env)
          (VStr "lockProfile: User ID not found. Please ensure you are logged in.") in
      utils_error "lockProfile" error ;;
      v <- call callback [error] ;; ret (RetValue v)
    else
      try_catch
        (client_mutation_id <- generateOfflineThreadingID ;;
         let form :=
           lockProfile_form enable targetUserID client_mutation_id in
         utils_log "lockProfile"
           ((if truthy enable then "Locking" else "Unlocking")
            ++ " profile for user " ++ to_string (engine env) targetUserID) ;;
         response <- post (mkRequest graphql_url form None) ;;
         check_response response ;;
         let result := lockProfile_result enable targetUserID in
         utils_log "lockProfile"
           (to_string (engine env) (obj_get (match result with
                              | VObj ps => ps
                              | _ => []
                              end) "message")) ;;
         call callback [VNull; result] ;;
         ret tt)
        (fun error =>
           utils_error "lockProfile" error ;;
           call callback [error] ;;
           ret tt) ;;
      ret RetPromise.

Definition lockProfile (enable : value) (userID callback : arg) : result :=
  run (async (lockProfile_body enable userID callback)).

(** *** profileGuard, legacy

    [(guard, callback = () => {}) => { ... }]: not an async function, so
    the check of [guard] throws at the call; the rest is the promise of
    the [.then(...).catch(...)] chain. *)

Definition profileGuard_legacy_form (guard : value)
  : list (string * value) :=
  let uid := ctx_userID ctx in
  [("av", uid);
   ("variables",
      of_option_string
        (JSON_stringify (engine env)
           (VObj [("input", VObj [("is_shielded", VBool (truthy guard));
                                  ("actor_id", uid);
                                  ("client_mutation_id", VStr "1")]);
                  ("scale", VNum 1)])));
   ("doc_id", VStr "1477043292367183");
   ("fb_api_req_friendly_name", VStr "IsShieldedSetMutation");
   ("fb_api_caller_class", VStr "IsShieldedSetMutation")].

Definition profileGuard_legacy_body (guard : value) (callback : arg)
  : M promise_state :=
  let callback :=
    match callback with
    | AVal VUndefined => CbNoop
    | _ => CbGiven callback
    end in
  if negb (getType (AVal guard) =? "Boolean") then
    throw (VObj [("error",
                  VStr "Please pass a boolean as a second argument.")])
  else
    let form := profileGuard_legacy_form guard in
    chain
      (try_catch
         (resData <- post (mkRequest "https://www.facebook.com/api/graphql"
                             form None) ;;
          err <- prop resData "err" ;;
          if truthy err then throw (VObj [("err", err)])
          else call callback [])
         (fun err =>
            utils_error "setProfileGuard" err ;;
            call callback [err])).

Definition profileGuard_legacy (guard : value) (callback : arg) : result :=
  run (profileGuard_legacy_body guard callback).

End Session.

(** ** What a run delivered *)

(** The data a run handed over as a result: the second argument of every
    call of a function of the caller, and what the internal promise was
    fulfilled with. *)
Definition results_delivered (r : result) : list value :=
  map (fun c => nth_arg 1 (snd c)) (calls (final r))
  ++ match returnPromise (final r) with
     | Fulfilled v => [v]
     | _ => []
     end.

(** The errors a run handed over: the truthy first argument of a call of a
    function of the caller, and what the internal promise was rejected
    with. *)
Definition errors_delivered (r : result) : list value :=
  filter truthy (map (fun c => nth_arg 0 (snd c)) (calls (final r)))
  ++ match returnPromise (final r) with
     | Rejected e => [e]
     | _ => []
     end.

(** [v.success === true] *)
Definition reports_success (v : value) : bool :=
  match get_prop v "success" with
  | Some (VBool true) => true
  | _ => false
  end.

(** ** Vocabulary of the statements *)

(** A callback slot holds a function, or nothing (a falsy value). *)
Definition callable_or_absent (a : arg) : bool :=
  match a with
  | AFun _ _ => true
  | AVal v => negb (truthy v)
  end.

(** The decoded response has a truthy [error] or [errors] field. *)
Definition reports_error (response : value) : bool :=
  match get_prop response "error", get_prop response "errors" with
  | Some error, Some errors => truthy (js_or error errors)
  | _, _ => false
  end.

(** The decoded response is an object without a truthy [error] or [errors]. *)
Definition reports_no_error (response : value) : bool :=
  match get_prop response "error", get_prop response "errors" with
  | Some error, Some errors => negb (truthy (js_or error errors))
  | _, _ => false
  end.

(** The [Error] made from such a response: its message is the text of
    [error], or else the JSON text of [errors]. *)
Definition remote_error (rt : runtime) (response : value) : value :=
  match get_prop response "error", get_prop response "errors" with
  | Some error, Some errors =>
      new_Error rt (if truthy error then error
                    else of_option_string (JSON_stringify rt errors))
  | _, _ => VUndefined
  end.

(** [v.k1.k2...] on plain objects. *)
Fixpoint path (ks : list string) (v : value) : option value :=
  match ks with
  | [] => Some v
  | k :: rest =>
      match v with
      | VObj props =>
          match lookup k props with
          | Some x => path rest x
          | None => None
          end
      | _ => None
      end
  end.

(** The message names every key of [REACTION_TYPES]. *)
Definition enumerates_reactions (msg : string) : bool :=
  forallb (fun k => includes k msg) (keys REACTION_TYPES).

(** [typeof a === 'string'] *)
Definition is_string (a : arg) : bool :=
  match a with
  | AVal (VStr _) => true
  | _ => false
  end.

(** What [reactionType.toUpperCase()] gives; [None] is the TypeError of a
    value that has no such method. *)
Definition upper_outcome (rt : runtime) (reactionType : reaction_arg)
  : option (outcome value) :=
  match reactionType with
  | RArg (AVal (VStr s)) => Some (Done (VStr (toUpperCase rt s)))
  | RArg _ => None
  | RObject o => Some o
  end.

(** The local checks of the reworked operations, as the bodies make them
    before they build a request: a call is accepted when it passes them. *)
Definition reactPost_accepts (env : environment) (postID : value)
    (reactionType : reaction_arg) : bool :=
  truthy postID
  && match upper_outcome (engine env) reactionType with
     | Some (Done v) =>
         truthy_reaction reactionType
         && hasOwnProperty REACTION_TYPES (to_string (engine env) v)
     | _ => false
     end.

(** One of the three checks of reactPost fires. *)
Definition reactPost_rejects (env : environment) (postID : value)
    (reactionType : reaction_arg) : bool :=
  negb (truthy postID)
  || negb (truthy_reaction reactionType)
  || match upper_outcome (engine env) reactionType with
     | Some (Done v) =>
         negb (hasOwnProperty REACTION_TYPES (to_string (engine env) v))
     | _ => false
     end.

(** One of the two checks of profileGuard and lockProfile fires; [userID]
    is the value left in the slot by [optional_parameters]. *)
Definition toggle_rejects (ctx : context) (enable userID : value) : bool :=
  negb (typeof enable =? "boolean")
  || negb (truthy (js_or userID (ctx_userID ctx))).

(** The requests the operations send. *)
Definition reactPost_request (ctx : context) (env : environment)
    (postID reactionValue : value) : request :=
  mkRequest graphql_url
    (reactPost_form env
       (reactPost_variables ctx env postID reactionValue
          (threading_id env 0) (threading_id env 1)))
    None.

Definition profileGuard_request (ctx : context) (env : environment)
    (enable targetUserID : value) : request :=
  mkRequest "https://graph.facebook.com/graphql"
    (profileGuard_form env enable targetUserID (threading_id env 0))
    (Some (profileGuard_headers ctx)).

Definition lockProfile_request (ctx : context) (env : environment)
    (enable targetUserID : value) : request :=
  mkRequest graphql_url
    (lockProfile_form ctx env enable targetUserID (threading_id env 0))
    None.

(** The two shapes the bodies of the reworked operations share: the
    refusal of a call by a local check, and the exchange with the transport
    of a call that passed them, after [ids] threading identifiers were
    drawn for the request [q]. *)
Definition take_ids (ids : nat) : M unit :=
  fun w => (Done tt, mkWorld (logs w) (posts w) (calls w) (returnPromise w)
                       (ids + drawn w)).

Definition refusal (env : environment) (tag msg : string) (cb : callback)
  : M returned :=
  let error := new_Error (engine env) (VStr msg) in
  utils_error tag error ;;
  v <- call env cb [error] ;; ret (RetValue v).

Definition transaction (env : environment) (tag : string) (ids : nat)
    (note : string) (q : request) (done : string) (result : value)
    (cb : callback) : M returned :=
  try_catch
    (take_ids ids ;;
     utils_log tag note ;;
     response <- post env q ;;
     check_response env response ;;
     utils_log tag done ;;
     call env cb [VNull; result] ;;
     ret tt)
    (fun error =>
       utils_error tag error ;;
       call env cb [error] ;;
       ret tt) ;;
  ret RetPromise.

(** The numbers below [k], and the checks the base64 proofs run over them. *)
Definition below (k : nat) : list N := map N.of_nat (seq 0 k).

Definition sextet_ok (n : N) : bool :=
  match b64_value (b64_char n) with
  | Some m => (m =? n)%N && negb (is_pad (b64_char n))
  | None => false
  end.

Definition bytes_ok (a b : N) : bool :=
  (N.shiftr a 2 <? 64)%N
  && (sextet2 a b <? 64)%N
  && (N.lor (N.shiftl (N.shiftr a 2) 2) (N.shiftr (sextet2 a b) 4) =? a)%N
  && (N.land (sextet2 a b) 15 =? N.shiftr b 4)%N
  && (N.lor (N.shiftl (N.shiftr b 4) 4) (N.land b 15) =? b)%N
  && (sextet3 a b <? 64)%N
  && (N.shiftr (sextet3 a b) 2 =? N.land a 15)%N
  && (N.lor (N.shiftl (N.land (sextet3 a b) 3) 6) (N.land b 63) =? b)%N
  && (N.land b 63 <? 64)%N.

Record byte_facts (a b : N) : Prop := mkByteFacts {
  bf_s1 : (N.shiftr a 2 < 64)%N;
  bf_s2 : (sextet2 a b < 64)%N;
  bf_hi : N.lor (N.shiftl (N.shiftr a 2) 2) (N.shiftr (sextet2 a b) 4) = a;
  bf_s2_low : N.land (sextet2 a b) 15 = N.shiftr b 4;
  bf_split : N.lor (N.shiftl (N.shiftr b 4) 4) (N.land b 15) = b;
  bf_s3 : (sextet3 a b < 64)%N;
  bf_s3_high : N.shiftr (sextet3 a b) 2 = N.land a 15;
  bf_lo : N.lor (N.shiftl (N.land (sextet3 a b) 3) 6) (N.land b 63) = b;
  bf_s4 : (N.land b 63 < 64)%N
}.

(** Two sessions and transports to run the operations on. *)
Definition alice : context :=
  mkContext (VStr "1000") ["c_user=1000; Path=/"; "sb=1; access_token=TOK; x"].

(** A runtime to run them on: on the inputs below, the texts it is asked
    for are those of an ASCII string and of a small number. *)
Definition plain_runtime : runtime := mkRuntime string_of_Z (fun s => s).

(** A caller whose functions return undefined. *)
Definition quiet (id : nat) (before : list (nat * list value))
    (args : list value) : outcome value :=
  Done VUndefined.

Definition transport (r : reply) : environment :=
  mkEnvironment (fun _ => r) 1700000000000 123456
    (fun n => "id" ++ string_of_Z (Z.of_nat n)) quiet plain_runtime.

Definition accepting : environment :=
  transport (Resolved (VObj [("data", VObj [])])).

Definition failing : environment :=
  transport
    (Resolved (VObj [("errors", VArr [VObj [("message", VStr "boom")]])])).


(** The promise a call of the caller's function leaves: it is rejected
    with what the function threw, and else is [otherwise]. *)
Definition rejected_if_thrown (o : outcome value) (otherwise : promise_state)
  : promise_state :=
  match o with
  | Done _ => otherwise
  | Throw x => Rejected x
  end.

(** The promise of [return callback(...)]: fulfilled with what the function
    returned, rejected with what it threw. *)
Definition settled_by (o : outcome value) : promise_state :=
  match o with
  | Done v => Fulfilled v
  | Throw x => Rejected x
  end.


(** How a call refused by a local check reaches the caller: a function given
    as callback is called once, with the Error alone; without a callback
    the default one rejects the internal promise with it. *)
Definition error_reaches (e : value) (callback : arg) (r : result) : Prop :=
  match callback with
  | AFun _ id => calls (final r) = [(id, [e])]
  | AVal _ => calls (final r) = [] /\ returnPromise (final r) = Rejected e
  end.

(** The calls of the caller's function [id] that begin with a call inside
    a try block, with [args]: when that call throws, the catch block calls
    the function once more, with what it threw. *)
Definition first_calls (env : environment) (id : nat) (args : list value)
  : list (nat * list value) :=
  (id, args)
  :: match cb_run env id [] args with
     | Done _ => []
     | Throw x => [(id, [x])]
     end.

(** The calls of the caller's function [id] by a call that succeeded with
    [v]: one with [(null, v)], and one more with the error when that call
    threw it. *)
Definition success_calls (env : environment) (id : nat) (v : value)
  : list (nat * list value) :=
  first_calls env id [VNull; v].

(** The promise a reworked operation returns after such calls. *)
Definition success_promise (env : environment) (id : nat) (v : value)
  : promise_state :=
  match cb_run env id [] [VNull; v] with
  | Done _ => Pending
  | Throw x =>
      rejected_if_thrown (cb_run env id [(id, [VNull; v])] [x]) Pending
  end.



(** ** Vocabulary of the further properties *)

(** The value reactPost works with: what [toUpperCase] returned. *)
Definition normalized (rt : runtime) (reactionType : reaction_arg) : value :=
  match upper_outcome rt reactionType with
  | Some (Done v) => v
  | _ => VUndefined
  end.



(** The request of the legacy profileGuard. *)
Definition profileGuard_legacy_request (ctx : context) (env : environment)
    (guard : value) : request :=
  mkRequest "https://www.facebook.com/api/graphql"
    (profileGuard_legacy_form ctx env guard) None.

(** The user a call of profileGuard or lockProfile is about. *)
Definition target_user (ctx : context) (userID callback : arg) : value :=
  js_or (fst (optional_parameters userID callback)) (ctx_userID ctx).

(** The callback slot after the optional parameters are sorted out. *)
Definition callback_slot (userID callback : arg) : arg :=
  snd (optional_parameters userID callback).

(** The error was written to the diagnostic log. *)
Definition logged (e : value) (r : result) : Prop :=
  exists tag, In (LogError tag e) (logs (final r)).

(** A session without cookies and without a current user. *)
Definition nobody : context := mkContext VUndefined [].


(** How a call refused by a local check ends: nothing is sent, the Error is
    logged once; a function of the caller is called with it and the promise
    is fulfilled with what the function returned (rejected with what it
    threw); without a callback the internal promise is rejected with it. *)
Definition refused_with (env : environment) (tag msg : string)
    (callback : arg) (r : result) : Prop :=
  let e := VError "Error" msg in
  posts (final r) = []
  /\ logs (final r) = [LogError tag e]
  /\ match callback with
     | AFun _ id =>
         calls (final r) = [(id, [e])]
         /\ completed r = Returns (settled_by (cb_run env id [] [e]))
     | AVal _ =>
         calls (final r) = []
         /\ returnPromise (final r) = Rejected e
         /\ completed r = Returns (Fulfilled VUndefined)
     end.

(** A transport that fails with [e]. *)
Definition offline (e : value) : environment := transport (Failed e).

(** [v == null]: undefined or null. *)
Definition nullish (v : value) : bool :=
  match v with
  | VUndefined | VNull => true
  | _ => false
  end.

(** The TypeError of reading [response.error] on a missing response. *)
Definition missing_response_error (response : value) : value :=
  VError "TypeError"
    ("Cannot read properties of "
     ++ match response with VNull => "null" | _ => "undefined" end
     ++ " (reading 'error')").

(** How an accepted call delivers its result [v].  A function of the caller
    is called with [(null, v)]; when it returns, that is all and the promise
    stays pending; when it throws, the error is logged and the function is
    called once more, with the error.  Without a callback the promise is
    fulfilled with [v] and no error is delivered. *)
Definition delivers (env : environment) (v : value) (callback : arg)
    (r : result) : Prop :=
  In v (results_delivered r)
  /\ match callback with
     | AFun _ id =>
         calls (final r) = success_calls env id v
         /\ completed r = Returns (success_promise env id v)
         /\ match cb_run env id [] [VNull; v] with
            | Done _ => errors_delivered r = []
            | Throw x => logged x r
            end
     | AVal _ =>
         calls (final r) = []
         /\ completed r = Returns (Fulfilled v)
         /\ errors_delivered r = []
         /\ results_delivered r = [v]
     end.



(** The message of the local check of reactPost that refuses a call. *)
Definition reactPost_complaint (postID : value) (reactionType : reaction_arg)
  : string :=
  if negb (truthy postID) then "reactPost: Post ID is required"
  else if negb (truthy_reaction reactionType)
       then "reactPost: Reaction type is required"
       else "reactPost: Invalid reaction type. Must be one of: "
            ++ join ", " (keys REACTION_TYPES).

(** The message of the local check of profileGuard ([op] is its name) or
    lockProfile that refuses a call; [hint] is what the operation says
    about its first parameter. *)
Definition toggle_complaint (op hint : string) (enable : value) : string :=
  if negb (typeof enable =? "boolean")
  then op ++ ": First parameter must be a boolean (" ++ hint ++ ")"
  else op ++ ": User ID not found. Please ensure you are logged in.".

(** The two lines the reworked operations write to the log around their
    request, and the exchange each of them makes once a call is accepted. *)
Definition reactPost_note (env : environment) (postID normalizedReaction
    reactionValue : value) : string :=
  (if is_zero reactionValue then "Removing reaction from"
   else "Adding " ++ to_string (engine env) normalizedReaction ++ " to")
  ++ " post " ++ to_string (engine env) postID.

Definition message_of (result : value) : string :=
  match get_prop result "message" with
  | Some (VStr m) => m
  | _ => ""
  end.

Definition reactPost_exchange (ctx : context) (env : environment)
    (postID normalizedReaction : value) (cb : callback) : M returned :=
  let reactionValue :=
    obj_get REACTION_TYPES (to_string (engine env) normalizedReaction) in
  let result := reactPost_result env postID normalizedReaction reactionValue in
  transaction env "reactPost" 2
    (reactPost_note env postID normalizedReaction reactionValue)
    (reactPost_request ctx env postID reactionValue)
    (message_of result) result cb.

Definition profileGuard_exchange (ctx : context) (env : environment)
    (enable targetUserID : value) (cb : callback) : M returned :=
  let result := profileGuard_result enable targetUserID in
  transaction env "profileGuard" 1
    ((if truthy enable then "Enabling" else "Disabling")
     ++ " profile picture guard for user "
     ++ to_string (engine env) targetUserID)
    (profileGuard_request ctx env enable targetUserID)
    (message_of result) result cb.

Definition lockProfile_exchange (ctx : context) (env : environment)
    (enable targetUserID : value) (cb : callback) : M returned :=
  let result := lockProfile_result enable targetUserID in
  transaction env "lockProfile" 1
    ((if truthy enable then "Locking" else "Unlocking")
     ++ " profile for user " ++ to_string (engine env) targetUserID)
    (lockProfile_request ctx env enable targetUserID)
    (message_of result) result cb.
(** * Properties *)

(** ** Base64 round trip *)

Lemma below_spec (k : nat) (n : N) : (n < N.of_nat k)%N -> In n (below k).
Proof.
  intros H. unfold below. apply in_map_iff. exists (N.to_nat n). split.
  - apply N2Nat.id.
  - apply in_seq. lia.
Qed.

Lemma forall_below (k : nat) (p : N -> bool) :
  forallb p (below k) = true -> forall n, (n < N.of_nat k)%N -> p n = true.
Proof.
  intros H n Hn. rewrite forallb_forall in H. apply H, below_spec, Hn.
Qed.

Lemma sextet_ok_all (n : N) : (n < 64)%N -> sextet_ok n = true.
Proof. revert n. apply (forall_below 64). vm_compute. reflexivity. Qed.

Lemma b64_value_char (n : N) : (n < 64)%N -> b64_value (b64_char n) = Some n.
Proof.
  intros H. apply sextet_ok_all in H. unfold sextet_ok in H.
  destruct (b64_value (b64_char n)) as [m|]; [|discriminate].
  apply andb_prop in H. destruct H as [H _]. apply N.eqb_eq in H. now subst.
Qed.

Lemma is_pad_char (n : N) : (n < 64)%N -> is_pad (b64_char n) = false.
Proof.
  intros H. apply sextet_ok_all in H. unfold sextet_ok in H.
  destruct (b64_value (b64_char n)); [|discriminate].
  apply andb_prop in H. destruct H as [_ H]. now apply negb_true_iff in H.
Qed.

Lemma bytes_ok_all (a b : N) :
  (a < 256)%N -> (b < 256)%N -> bytes_ok a b = true.
Proof.
  intros Ha Hb.
  assert (H : forallb (fun x => forallb (bytes_ok x) (below 256)) (below 256)
              = true) by (vm_compute; reflexivity).
  pose proof (forall_below 256 _ H a Ha) as H1. cbv beta in H1.
  exact (forall_below 256 _ H1 b Hb).
Qed.

Lemma byte_facts_all (a b : N) :
  (a < 256)%N -> (b < 256)%N -> byte_facts a b.
Proof.
  intros Ha Hb. pose proof (bytes_ok_all a b Ha Hb) as H.
  unfold bytes_ok in H.
  repeat (apply andb_prop in H; let H' := fresh "F" in destruct H as [H H']).
  repeat match goal with
         | F : (_ <? _)%N = true |- _ => apply N.ltb_lt in F
         | F : (_ =? _)%N = true |- _ => apply N.eqb_eq in F
         end.
  constructor; assumption.
Qed.

Lemma list_ind3 (A : Type) (P : list A -> Prop) :
  P [] -> (forall a, P [a]) -> (forall a b, P [a; b]) ->
  (forall a b c l, P l -> P (a :: b :: c :: l)) ->
  forall l, P l.
Proof.
  intros H0 H1 H2 H3. fix IH 1.
  intros [|a [|b [|c l]]];
    [exact H0 | exact (H1 a) | exact (H2 a b) | exact (H3 a b c l (IH l))].
Qed.

Lemma b64_decode_encode_bytes (bs : list N) :
  Forall (fun b => (b < 256)%N) bs ->
  b64_decode_chars (b64_encode_bytes bs) = Some bs.
Proof.
  induction bs as [|a|a b|a b c rest IH] using list_ind3; intros Hbs.
  - reflexivity.
  - inversion_clear Hbs as [|? ? Ha _].
    destruct (byte_facts_all a 0 Ha eq_refl) as [S1 S2 HI _ _ _ _ _ _].
    cbn [b64_encode_bytes b64_decode_chars].
    rewrite !b64_value_char by assumption. rewrite HI. reflexivity.
  - inversion_clear Hbs as [|? ? Ha Hbs']. inversion_clear Hbs' as [|? ? Hb _].
    destruct (byte_facts_all a b Ha Hb) as [S1 S2 HI LOW SPLIT _ _ _ _].
    destruct (byte_facts_all b 0 Hb eq_refl) as [_ _ _ _ _ S3 HIGH _ _].
    cbn [b64_encode_bytes b64_decode_chars].
    rewrite !b64_value_char by assumption.
    rewrite (is_pad_char _ S3). rewrite HI, LOW, HIGH, SPLIT. reflexivity.
  - inversion_clear Hbs as [|? ? Ha Hbs']. inversion_clear Hbs' as [|? ? Hb Hbs].
    inversion_clear Hbs as [|? ? Hc Hrest].
    destruct (byte_facts_all a b Ha Hb) as [S1 S2 HI LOW SPLIT _ _ _ _].
    destruct (byte_facts_all b c Hb Hc) as [_ _ _ _ _ S3 HIGH LO S4].
    cbn [b64_encode_bytes b64_decode_chars].
    rewrite !b64_value_char by assumption.
    rewrite (is_pad_char _ S3), (is_pad_char _ S4).
    rewrite (IH Hrest). rewrite HI, LOW, HIGH, SPLIT, LO. reflexivity.
Qed.

Lemma Forall_byte (cs : list ascii) :
  Forall (fun b => (b < 256)%N) (map N_of_ascii cs).
Proof.
  induction cs as [|c cs IH]; constructor; [apply N_ascii_bounded | exact IH].
Qed.

Lemma base64_round_trip (s : string) :
  base64_decode (base64_encode s) = Some s.
Proof.
  unfold base64_decode, base64_encode.
  rewrite list_ascii_of_string_of_list_ascii.
  rewrite b64_decode_encode_bytes by apply Forall_byte.
  rewrite map_map. rewrite (map_ext _ (fun c => c)) by apply ascii_N_embedding.
  rewrite map_id. now rewrite string_of_list_ascii_of_string.
Qed.

(** ** Running the bodies *)

Lemma new_Error_text (rt : runtime) (msg : string) :
  new_Error rt (VStr msg) = VError "Error" msg.
Proof. reflexivity. Qed.

(** Unfold the monad and the effects of a body, and compute what is known. *)
Ltac js_run :=
  repeat
    (progress
       (cbv beta iota zeta delta
          [run async chain bind ret throw try_catch call invoke settle
           utils_error utils_log post generateOfflineThreadingID prop
           take_ids refusal transaction
           logs posts calls returnPromise drawn completed final init_world
           results_delivered errors_delivered];
        cbn [truthy to_string nth_arg nth app map filter snd fst Nat.add];
        rewrite ?new_Error_text)).

(** Close a goal [In v delivered -> reports_success v = true -> _] when no
    delivered value reports success. *)
Ltac no_success :=
  cbn [In];
  let H := fresh "Hin" in
  let Hs := fresh "Hok" in
  intros H Hs; repeat destruct H as [<-|H]; try contradiction;
  try discriminate.

Lemma bind_ret (A B : Type) (a : A) (k : A -> M B) : bind (ret a) k = k a.
Proof. reflexivity. Qed.

Lemma lookup_REACTION_TYPES (k : string) (v : value) :
  lookup k REACTION_TYPES = Some v ->
  exists code, v = VNum code /\ In (k, VNum code) REACTION_TYPES.
Proof.
  unfold REACTION_TYPES. cbn [lookup].
  repeat match goal with
         | |- context [(?a =? k)%string] =>
             destruct (String.eqb_spec a k) as [<-|_]
         end;
    intros H; inversion H; subst; eexists; split; try reflexivity;
    cbn [In]; tauto.
Qed.

(** The three ways the check of the response can go. *)
Lemma check_response_cases (env : environment) (response : value)
    (w : world) :
  (reports_error response = true
   /\ check_response env response w
      = (Throw (remote_error (engine env) response), w))
  \/ (reports_no_error response = true
      /\ check_response env response w = (Done tt, w))
  \/ (nullish response = true
      /\ check_response env response w
         = (Throw (missing_response_error response), w)).
Proof.
  unfold reports_error, reports_no_error, remote_error, check_response, prop,
    bind.
  destruct (get_prop response "error") as [e|] eqn:He.
  - destruct (get_prop response "errors") as [es|] eqn:Hes.
    + cbv beta iota delta [ret].
      destruct (truthy (js_or e es)); [left | right; left]; split; reflexivity.
    + destruct response; discriminate.
  - right. right. destruct response; try discriminate; split; reflexivity.
Qed.

Lemma nullish_get_prop (response : value) (k : string) :
  nullish response = true -> get_prop response k = None.
Proof. destruct response; (discriminate || reflexivity). Qed.


Lemma check_response_passes (env : environment) (response : value)
    (w : world) :
  reports_no_error response = true ->
  check_response env response w = (Done tt, w).
Proof.
  intros H.
  destruct (check_response_cases env response w)
    as [[H' _]|[[_ E]|[H' _]]].
  - unfold reports_error in H'. unfold reports_no_error in H.
    destruct (get_prop response "error"), (get_prop response "errors");
      try discriminate.
    rewrite H' in H. discriminate.
  - exact E.
  - unfold reports_no_error in H.
    rewrite (nullish_get_prop response "error" H') in H. discriminate.
Qed.



Lemma or_default_cases (a : arg) :
  callable_or_absent a = true ->
  (exists k id, a = AFun k id /\ or_default a = CbGiven (AFun k id))
  \/ (truthy_arg a = false /\ or_default a = CbDefault).
Proof.
  unfold or_default. destruct a as [v|k id]; cbn [callable_or_absent truthy_arg].
  - intros H. apply negb_true_iff in H. rewrite H. right. split; reflexivity.
  - intros _. left. exists k, id. split; reflexivity.
Qed.

Lemma or_default_absent (v : value) :
  callable_or_absent (AVal v) = true -> or_default (AVal v) = CbDefault.
Proof.
  intros H. destruct (or_default_cases _ H) as [(k & id & E & _)|[_ E]];
    [discriminate | exact E].
Qed.


Lemma or_default_function (k : fun_kind) (id : nat) :
  or_default (AFun k id) = CbGiven (AFun k id).
Proof. reflexivity. Qed.

Lemma optional_parameters_function (k : fun_kind) (id : nat) (callback : arg) :
  optional_parameters (AFun k id) callback = (VNull, AFun k id).
Proof. destruct k; reflexivity. Qed.

Lemma optional_parameters_value (v : value) (callback : arg) :
  optional_parameters (AVal v) callback = (v, callback).
Proof. destruct v; reflexivity. Qed.

(** Case splits on what a run depends on: the kind of callback, the reply
    of the transport, the check of the response, the truth of a value, and
    what the caller's function does. *)
Ltac split_callback cb := destruct cb as [[?c|?k ?id]| |].

Ltac split_response env :=
  match goal with
  | |- context [respond env ?q] =>
      destruct (respond env q) as [?response|?err] eqn:?
  end.

Ltac split_check :=
  match goal with
  | |- context [check_response ?env ?r ?w] =>
      destruct (check_response_cases env r w)
        as [[?Hr ->]|[[?Hr ->]|[?Hr ->]]]
  end.

Ltac split_truthy :=
  match goal with
  | |- context [truthy ?e] => destruct (truthy e) eqn:?
  end.

Ltac split_cb :=
  match goal with
  | |- context [cb_run ?env ?id ?before ?args] =>
      destruct (cb_run env id before args) as [?ret|?thrown] eqn:?
  end.

(** Every case of a refusal, and of an exchange with the transport. *)
Ltac refusal_cases cb :=
  split_callback cb; js_run; repeat split_cb; js_run;
  repeat split_truthy; js_run.

Ltac transaction_cases env cb :=
  js_run; split_response env; js_run;
  [ split_check; unfold missing_response_error, type_error;
    split_callback cb; js_run; repeat (split_cb; js_run);
    repeat (split_truthy; js_run)
  | split_callback cb; js_run; repeat (split_cb; js_run);
    repeat (split_truthy; js_run) ].

(** ** The bodies as refusals and exchanges *)

Lemma getType_Boolean (v : value) :
  (getType (AVal v) =? "Boolean") = (typeof v =? "boolean").
Proof. destruct v; reflexivity. Qed.

Lemma reactPost_accepts_cases (env : environment) (postID : value)
    (reactionType : reaction_arg) :
  reactPost_accepts env postID reactionType = true ->
  exists name code,
    upper_outcome (engine env) reactionType = Some (Done name)
    /\ truthy postID = true
    /\ truthy_reaction reactionType = true
    /\ lookup (to_string (engine env) name) REACTION_TYPES = Some (VNum code).
Proof.
  unfold reactPost_accepts. intros H. apply andb_prop in H.
  destruct H as [Hp Hk].
  destruct (upper_outcome (engine env) reactionType) as [[name|e]|];
    try discriminate.
  apply andb_prop in Hk. destruct Hk as [Hr Hk].
  unfold hasOwnProperty in Hk.
  destruct (lookup (to_string (engine env) name) REACTION_TYPES) as [v|] eqn:Hl;
    [|discriminate].
  destruct (lookup_REACTION_TYPES _ _ Hl) as (code & -> & _).
  exists name, code. repeat split; assumption.
Qed.

Lemma call_toUpperCase_outcome (rt : runtime) (reactionType : reaction_arg) :
  call_toUpperCase rt reactionType
  = match upper_outcome rt reactionType with
    | Some (Done v) => ret v
    | Some (Throw e) => throw e
    | None => throw (type_error "reactionType.toUpperCase is not a function")
    end.
Proof.
  destruct reactionType as [[[]|]|[]]; reflexivity.
Qed.

(** reactPost once the three checks have passed. *)
Lemma reactPost_accepted (ctx : context) (env : environment) (postID : value)
    (reactionType : reaction_arg) (callback : arg) :
  reactPost_accepts env postID reactionType = true ->
  reactPost ctx env postID reactionType callback
  = run (async (reactPost_exchange ctx env postID
                  (normalized (engine env) reactionType)
                  (or_default callback))).
Proof.
  intros Ha.
  destruct (reactPost_accepts_cases _ _ _ Ha) as (name & code & Hu & Hp & Hr & Hl).
  unfold reactPost, reactPost_body, reactPost_exchange, normalized.
  rewrite Hp, Hr, call_toUpperCase_outcome, Hu. cbn [negb]. rewrite bind_ret.
  unfold hasOwnProperty, obj_get. rewrite Hl. cbn [negb].
  reflexivity.
Qed.

(** reactPost when one of the three checks fires. *)
Lemma reactPost_refused (ctx : context) (env : environment) (postID : value)
    (reactionType : reaction_arg) (callback : arg) :
  reactPost_rejects env postID reactionType = true ->
  reactPost ctx env postID reactionType callback
  = run (async (refusal env "reactPost"
                  (reactPost_complaint postID reactionType)
                  (or_default callback))).
Proof.
  intros Hrej. unfold reactPost, reactPost_body, reactPost_complaint.
  unfold reactPost_rejects in Hrej.
  destruct (truthy postID); cbn [negb orb] in *; [|reflexivity].
  destruct (truthy_reaction reactionType); cbn [negb orb] in *;
    [|reflexivity].
  rewrite call_toUpperCase_outcome.
  destruct (upper_outcome (engine env) reactionType) as [[name|e]|];
    try discriminate.
  rewrite bind_ret, Hrej. reflexivity.
Qed.

(** reactPost when the call of toUpperCase throws. *)
Lemma reactPost_thrown (ctx : context) (env : environment) (postID : value)
    (reactionType : reaction_arg) (callback : arg) :
  reactPost_accepts env postID reactionType = false ->
  reactPost_rejects env postID reactionType = false ->
  exists e,
    reactPost ctx env postID reactionType callback
    = mkResult (Returns (Rejected e)) init_world.
Proof.
  unfold reactPost_accepts, reactPost_rejects, reactPost, reactPost_body.
  intros Ha Hrej.
  destruct (truthy postID); cbn [negb orb andb] in *; [|discriminate].
  destruct (truthy_reaction reactionType); cbn [negb orb andb] in *;
    [|discriminate].
  rewrite call_toUpperCase_outcome.
  destruct (upper_outcome (engine env) reactionType) as [[name|e]|].
  - rewrite Ha in Hrej. discriminate.
  - eexists. reflexivity.
  - eexists. reflexivity.
Qed.

Lemma toggle_accepts (ctx : context) (enable userID : value) :
  toggle_rejects ctx enable userID = false ->
  (exists b, enable = VBool b)
  /\ truthy (js_or userID (ctx_userID ctx)) = true.
Proof.
  unfold toggle_rejects. intros H. apply orb_false_elim in H.
  destruct H as [Hb Ht]. apply negb_false_iff in Ht. split; [|exact Ht].
  destruct enable; try discriminate. now exists b.
Qed.

(** profileGuard and lockProfile once the parameters are sorted out and the
    two checks have passed, and when one of the checks fires. *)
Lemma profileGuard_accepted (ctx : context) (env : environment)
    (enable : value) (userID callback : arg) :
  toggle_rejects ctx enable (fst (optional_parameters userID callback)) = false ->
  profileGuard ctx env enable userID callback
  = run (async (profileGuard_exchange ctx env enable
                  (target_user ctx userID callback)
                  (or_default (callback_slot userID callback)))).
Proof.
  intros Ha. unfold profileGuard, profileGuard_body, target_user, callback_slot.
  destruct (optional_parameters userID callback) as [uid cb].
  cbn [fst snd] in *.
  destruct (toggle_accepts _ _ _ Ha) as [[b ->] Ht].
  cbn [typeof String.eqb Ascii.eqb Bool.eqb negb].
  rewrite Ht. cbn [negb]. reflexivity.
Qed.

Lemma lockProfile_accepted (ctx : context) (env : environment)
    (enable : value) (userID callback : arg) :
  toggle_rejects ctx enable (fst (optional_parameters userID callback)) = false ->
  lockProfile ctx env enable userID callback
  = run (async (lockProfile_exchange ctx env enable
                  (target_user ctx userID callback)
                  (or_default (callback_slot userID callback)))).
Proof.
  intros Ha. unfold lockProfile, lockProfile_body, target_user, callback_slot.
  destruct (optional_parameters userID callback) as [uid cb].
  cbn [fst snd] in *.
  destruct (toggle_accepts _ _ _ Ha) as [[b ->] Ht].
  cbn [typeof String.eqb Ascii.eqb Bool.eqb negb].
  rewrite Ht. cbn [negb]. reflexivity.
Qed.

Lemma profileGuard_refused (ctx : context) (env : environment)
    (enable : value) (userID callback : arg) :
  toggle_rejects ctx enable (fst (optional_parameters userID callback)) = true ->
  profileGuard ctx env enable userID callback
  = run (async (refusal env "profileGuard"
                  (toggle_complaint "profileGuard"
                     "true to enable, false to disable" enable)
                  (or_default (callback_slot userID callback)))).
Proof.
  intros Hrej. unfold profileGuard, profileGuard_body, callback_slot,
    toggle_complaint.
  destruct (optional_parameters userID callback) as [uid cb].
  cbn [fst snd] in *. unfold toggle_rejects in Hrej.
  destruct (typeof enable =? "boolean"); cbn [negb orb] in *; [|reflexivity].
  rewrite Hrej. reflexivity.
Qed.

Lemma lockProfile_refused (ctx : context) (env : environment)
    (enable : value) (userID callback : arg) :
  toggle_rejects ctx enable (fst (optional_parameters userID callback)) = true ->
  lockProfile ctx env enable userID callback
  = run (async (refusal env "lockProfile"
                  (toggle_complaint "lockProfile"
                     "true to lock, false to unlock" enable)
                  (or_default (callback_slot userID callback)))).
Proof.
  intros Hrej. unfold lockProfile, lockProfile_body, callback_slot,
    toggle_complaint.
  destruct (optional_parameters userID callback) as [uid cb].
  cbn [fst snd] in *. unfold toggle_rejects in Hrej.
  destruct (typeof enable =? "boolean"); cbn [negb orb] in *; [|reflexivity].
  rewrite Hrej. reflexivity.
Qed.

(** ** Refusals and exchanges, whatever the operation *)

Ltac logged_goal :=
  cbn [In];
  let H := fresh "Hin" in
  intros H; repeat destruct H as [<-|H]; try contradiction;
  eexists; cbn [In]; eauto.

Ltac finish :=
  repeat match goal with
         | |- _ /\ _ => split
         | |- exists _, _ => eexists
         | |- Forall _ _ => repeat constructor
         | |- In _ _ => cbn [In]; eauto
         end;
  try reflexivity.

Section Exchange.

Variable env : environment.
Variables (tag note done : string) (ids : nat) (q : request) (answer : value).

Lemma transaction_posts (cb : callback) :
  posts (final (run (async (transaction env tag ids note q done answer cb))))
  = [q].
Proof.
  transaction_cases env cb; reflexivity.
Qed.

Lemma transaction_errors_logged (cb : callback) (e : value) :
  let r := run (async (transaction env tag ids note q done answer cb)) in
  In e (errors_delivered r) -> logged e r.
Proof.
  unfold logged. transaction_cases env cb; logged_goal.
Qed.

Lemma transaction_delivered (cb : callback) (v : value) :
  In v (results_delivered
          (run (async (transaction env tag ids note q done answer cb)))) ->
  reports_success v = true ->
  v = answer.
Proof.
  transaction_cases env cb; no_success; reflexivity.
Qed.




Lemma transaction_success (response : value) (callback : arg) :
  respond env q = Resolved response ->
  reports_no_error response = true ->
  callable_or_absent callback = true ->
  delivers env answer callback
    (run (async (transaction env tag ids note q done answer
                   (or_default callback)))).
Proof.
  intros Hresp Hok Hcb.
  unfold delivers, logged, success_calls, success_promise,
    first_calls.
  destruct callback as [v|k id].
  - rewrite (or_default_absent v Hcb). js_run. rewrite Hresp. js_run.
    rewrite (check_response_passes env response _ Hok). js_run. finish.
  - rewrite or_default_function. js_run. rewrite Hresp. js_run.
    rewrite (check_response_passes env response _ Hok). js_run.
    split_cb; js_run; [|split_cb; js_run]; finish.
Qed.







Lemma refusal_posts (msg : string) (cb : callback) :
  posts (final (run (async (refusal env tag msg cb)))) = [].
Proof. refusal_cases cb; reflexivity. Qed.

Lemma refusal_errors_logged (msg : string) (cb : callback) (e : value) :
  let r := run (async (refusal env tag msg cb)) in
  In e (errors_delivered r) -> logged e r.
Proof. unfold logged. refusal_cases cb; logged_goal. Qed.

Lemma refusal_delivered (msg : string) (cb : callback) (v : value) :
  In v (results_delivered (run (async (refusal env tag msg cb)))) ->
  reports_success v = true ->
  False.
Proof. refusal_cases cb; no_success. Qed.

Lemma refusal_refused_with (msg : string) (callback : arg) :
  callable_or_absent callback = true ->
  refused_with env tag msg callback
    (run (async (refusal env tag msg (or_default callback)))).
Proof.
  intros Hcb. unfold refused_with.
  destruct callback as [v|k id].
  - rewrite (or_default_absent v Hcb). js_run. finish.
  - rewrite or_default_function. js_run. split_cb; finish.
Qed.

Lemma refusal_error_reaches (msg : string) (callback : arg) :
  callable_or_absent callback = true ->
  let r := run (async (refusal env tag msg (or_default callback))) in
  error_reaches (VError "Error" msg) callback r
  /\ errors_delivered r = [VError "Error" msg]
  /\ logs (final r) = [LogError tag (VError "Error" msg)].
Proof.
  intros Hcb r. subst r. unfold error_reaches.
  destruct callback as [v|k id].
  - rewrite (or_default_absent v Hcb). js_run. finish.
  - rewrite or_default_function. js_run. split_cb; finish.
Qed.




End Exchange.

(** ** reactPost *)



(** C5, as the code has it.  For a postID that is present and a non-empty
    reactionType string whose upper-case form is not a key of
    REACTION_TYPES, reactPost sends no request, logs an Error whose message
    names the seven reactions and NONE, and hands it over: a function given
    as callback is called with it, and without a callback the default one
    rejects the internal promise with it. *)
Theorem reactPost_unknown_reaction (ctx : context) (env : environment)
    (postID : value) (s : string) (callback : arg) :
  truthy postID = true ->
  truthy (VStr s) = true ->
  hasOwnProperty REACTION_TYPES (toUpperCase (engine env) s) = false ->
  callable_or_absent callback = true ->
  let r := reactPost ctx env postID (AVal (VStr s)) callback in
  let msg := "reactPost: Invalid reaction type. Must be one of: LIKE, LOVE, CARE, HAHA, WOW, SAD, ANGRY, NONE" in
  error_reaches (VError "Error" msg) callback r
  /\ errors_delivered r = [VError "Error" msg]
  /\ logs (final r) = [LogError "reactPost" (VError "Error" msg)]
  /\ enumerates_reactions msg = true
  /\ posts (final r) = [].
Proof.
  intros Hp Hs Hk Hcb r msg. subst r.
  assert (Hrej : reactPost_rejects env postID (AVal (VStr s)) = true).
  { unfold reactPost_rejects. cbn [upper_outcome to_string].
    rewrite Hk. cbn [negb]. apply orb_true_r. }
  rewrite (reactPost_refused ctx env postID _ callback Hrej).
  assert (Hm : reactPost_complaint postID (AVal (VStr s)) = msg).
  { unfold reactPost_complaint. cbn [truthy_reaction truthy_arg].
    rewrite Hp, Hs. reflexivity. }
  rewrite Hm.
  destruct (refusal_error_reaches env "reactPost" msg callback Hcb)
    as (H1 & H2 & H3).
  repeat split; try assumption.
  apply refusal_posts.
Qed.

Lemma reactPost_unknown_reaction_witness :
  let r := reactPost alice accepting (VStr "123456789_987654321")
             (AVal (VStr "BOGUS")) (AFun FkFunction 7) in
  let msg := "reactPost: Invalid reaction type. Must be one of: LIKE, LOVE, CARE, HAHA, WOW, SAD, ANGRY, NONE" in
  error_reaches (VError "Error" msg) (AFun FkFunction 7) r
  /\ errors_delivered r = [VError "Error" msg]
  /\ logs (final r) = [LogError "reactPost" (VError "Error" msg)]
  /\ enumerates_reactions msg = true
  /\ posts (final r) = [].
Proof.
  exact (reactPost_unknown_reaction alice accepting
           (VStr "123456789_987654321") "BOGUS" (AFun FkFunction 7)
           eq_refl eq_refl eq_refl eq_refl).
Defined.

(** C5 as stated fails: the empty string matches no reaction, and reactPost
    answers it with the "required" message, which names no reaction. *)
Lemma reactPost_empty_reaction_names_nothing :
  calls (final (reactPost alice accepting (VStr "123456789_987654321")
                  (AVal (VStr "")) (AFun FkFunction 7)))
  = [(7, [VError "Error" "reactPost: Reaction type is required"])]
  /\ hasOwnProperty REACTION_TYPES (toUpperCase plain_runtime "") = false
  /\ enumerates_reactions "reactPost: Reaction type is required" = false.
Proof. repeat split. Qed.







(** C10, as the code has it.  When the postID is present and reactionType
    is a truthy value that is not a string and has no toUpperCase method
    (the number 2, true, a plain array or object, a function), reactPost
    throws the TypeError of the missing toUpperCase before its try block:
    nothing is logged, no callback is called, nothing is sent, the internal
    promise stays pending, and the promise of the async function is
    rejected with the TypeError. *)
Theorem reactPost_non_string_reaction (ctx : context) (env : environment)
    (postID : value) (reactionType callback : arg) :
  truthy postID = true ->
  truthy_arg reactionType = true ->
  is_string reactionType = false ->
  reactPost ctx env postID reactionType callback
  = mkResult
      (Returns (Rejected (type_error "reactionType.toUpperCase is not a function")))
      init_world.
Proof.
  intros Hp Hr Hs. unfold reactPost, reactPost_body.
  cbn [truthy_reaction]. rewrite Hp, Hr. cbn [negb].
  destruct reactionType as [[]|]; try discriminate; reflexivity.
Qed.

Lemma reactPost_non_string_reaction_witness :
  reactPost alice accepting (VStr "123456789_987654321") (AVal (VNum 2))
    (AFun FkFunction 7)
  = mkResult
      (Returns (Rejected (type_error "reactionType.toUpperCase is not a function")))
      init_world.
Proof.
  exact (reactPost_non_string_reaction alice accepting
           (VStr "123456789_987654321") (AVal (VNum 2)) (AFun FkFunction 7)
           eq_refl eq_refl eq_refl).
Defined.

(** C10 as stated fails twice over.  With the number 2 as reactionType and
    no postID, the first check answers through the callback and the log,
    and no TypeError is raised.  And a truthy reactionType that is not a
    string but has a toUpperCase method of its own, here one that returns
    "LOVE", raises nothing: the call is accepted, the request is sent and
    the callback gets the result. *)
Lemma reactPost_number_reaction_without_postID :
  truthy_arg (AVal (VNum 2)) = true
  /\ is_string (AVal (VNum 2)) = false
  /\ reactPost alice accepting (VStr "") (AVal (VNum 2)) (AFun FkFunction 7)
     = mkResult (Returns (Fulfilled VUndefined))
         (mkWorld
            [LogError "reactPost" (VError "Error" "reactPost: Post ID is required")]
            []
            [(7, [VError "Error" "reactPost: Post ID is required"])]
            Pending 0)
  /\ truthy_reaction (RObject (Done (VStr "LOVE"))) = true
  /\ posts (final (reactPost alice accepting (VStr "123456789_987654321")
                     (RObject (Done (VStr "LOVE"))) (AFun FkFunction 7)))
     = [reactPost_request alice accepting (VStr "123456789_987654321")
          (VNum 2)]
  /\ calls (final (reactPost alice accepting (VStr "123456789_987654321")
                     (RObject (Done (VStr "LOVE"))) (AFun FkFunction 7)))
     = [(7, [VNull;
             reactPost_result accepting (VStr "123456789_987654321")
               (VStr "LOVE") (VNum 2)])]
  /\ completed (reactPost alice accepting (VStr "123456789_987654321")
                  (RObject (Done (VStr "LOVE"))) (AFun FkFunction 7))
     = Returns Pending.
Proof. repeat split. Qed.

(** ** Responses that report an error *)

Ltac legacy_cases env cb :=
  js_run; split_response env; js_run;
  [ match goal with
    | |- context [get_prop ?r "err"] =>
        destruct (get_prop r "err") as [?x|] eqn:?; js_run;
        [ match goal with
          | |- context [truthy ?e] => destruct (truthy e) eqn:?
          end |]
    end;
    split_callback cb; js_run; repeat (split_cb; js_run);
    repeat (split_truthy; js_run)
  | split_callback cb; js_run; repeat (split_cb; js_run);
    repeat (split_truthy; js_run) ].

Ltac legacy_callback callback cb :=
  set (cb := match callback with
             | AVal VUndefined => CbNoop
             | _ => CbGiven callback
             end);
  clearbody cb.






(** ** Local checks *)

(** C2, as the code has it.  When the first argument of profileGuard is not
    a boolean, no request is sent.  The reworked profileGuard throws
    nothing; it logs the Error "First parameter must be a boolean" and
    hands it over: a function given as callback is called with it, and
    without a callback the default one rejects the internal promise with
    it.  The legacy profileGuard throws the object
    {error: "Please pass a boolean as a second argument."} at the call. *)
Theorem non_boolean_guard_is_refused (ctx : context) (env : environment)
    (enable : value) :
  (typeof enable =? "boolean") = false ->
  let e := VError "Error" "profileGuard: First parameter must be a boolean (true to enable, false to disable)" in
  (forall userID callback,
      let r := profileGuard ctx env enable userID callback in
      posts (final r) = [] /\ exists p, completed r = Returns p)
  /\ (forall userID callback,
      callable_or_absent (snd (optional_parameters userID callback)) = true ->
      let r := profileGuard ctx env enable userID callback in
      error_reaches e (snd (optional_parameters userID callback)) r
      /\ errors_delivered r = [e]
      /\ logs (final r) = [LogError "profileGuard" e])
  /\ (forall callback,
      profileGuard_legacy ctx env enable callback
      = mkResult
          (Raises (VObj [("error",
                          VStr "Please pass a boolean as a second argument.")]))
          init_world).
Proof.
  intros Hb e.
  assert (Hrej : forall userID callback,
             toggle_rejects ctx enable
               (fst (optional_parameters userID callback)) = true).
  { intros. unfold toggle_rejects. now rewrite Hb. }
  assert (Hm : toggle_complaint "profileGuard"
                 "true to enable, false to disable" enable
               = "profileGuard: First parameter must be a boolean (true to enable, false to disable)").
  { unfold toggle_complaint. now rewrite Hb. }
  repeat apply conj.
  - intros userID callback r. subst r.
    rewrite (profileGuard_refused ctx env enable userID callback
               (Hrej userID callback)).
    split; [apply refusal_posts|].
    generalize (or_default (callback_slot userID callback)). intros cb.
    refusal_cases cb; eauto.
  - intros userID callback Hcb r. subst r.
    rewrite (profileGuard_refused ctx env enable userID callback
               (Hrej userID callback)), Hm.
    now apply refusal_error_reaches.
  - intros callback. unfold profileGuard_legacy, profileGuard_legacy_body.
    rewrite getType_Boolean, Hb. reflexivity.
Qed.

Lemma non_boolean_guard_is_refused_witness :
  let e := VError "Error" "profileGuard: First parameter must be a boolean (true to enable, false to disable)" in
  let r := profileGuard alice accepting (VStr "yes") (AVal VUndefined)
             (AFun FkFunction 7) in
  error_reaches e (AFun FkFunction 7) r
  /\ errors_delivered r = [e]
  /\ logs (final r) = [LogError "profileGuard" e].
Proof.
  exact (proj1 (proj2
           (non_boolean_guard_is_refused alice accepting (VStr "yes") eq_refl))
           (AVal VUndefined) (AFun FkFunction 7) eq_refl).
Defined.

(** C2 as stated fails: the legacy profileGuard throws at the call, and the
    promise the reworked one returns to a caller without callback is
    fulfilled with undefined, not rejected. *)
Lemma non_boolean_guard_thrown_or_fulfilled :
  completed (profileGuard_legacy alice accepting (VStr "yes")
               (AFun FkFunction 7))
  = Raises (VObj [("error",
                   VStr "Please pass a boolean as a second argument.")])
  /\ calls (final (profileGuard_legacy alice accepting (VStr "yes")
                     (AFun FkFunction 7)))
     = []
  /\ completed (profileGuard alice accepting (VStr "yes") (AVal VUndefined)
                  (AVal VUndefined))
     = Returns (Fulfilled VUndefined).
Proof. repeat split. Qed.

(** ** Requests *)

Lemma profileGuard_posts (ctx : context) (env : environment) (enable : value)
    (userID callback : arg) :
  posts (final (profileGuard ctx env enable userID callback))
  = if toggle_rejects ctx enable (fst (optional_parameters userID callback))
    then []
    else [profileGuard_request ctx env enable
            (target_user ctx userID callback)].
Proof.
  destruct (toggle_rejects ctx enable
              (fst (optional_parameters userID callback))) eqn:Hrej.
  - rewrite (profileGuard_refused ctx env enable userID callback Hrej).
    apply refusal_posts.
  - rewrite (profileGuard_accepted ctx env enable userID callback Hrej).
    apply transaction_posts.
Qed.

Lemma lockProfile_posts (ctx : context) (env : environment) (enable : value)
    (userID callback : arg) :
  posts (final (lockProfile ctx env enable userID callback))
  = if toggle_rejects ctx enable (fst (optional_parameters userID callback))
    then []
    else [lockProfile_request ctx env enable
            (target_user ctx userID callback)].
Proof.
  destruct (toggle_rejects ctx enable
              (fst (optional_parameters userID callback))) eqn:Hrej.
  - rewrite (lockProfile_refused ctx env enable userID callback Hrej).
    apply refusal_posts.
  - rewrite (lockProfile_accepted ctx env enable userID callback Hrej).
    apply transaction_posts.
Qed.

Lemma target_user_explicit (ctx : context) (u : value) (callback : arg) :
  truthy u = true -> target_user ctx (AVal u) callback = u.
Proof.
  intros Hu. unfold target_user. rewrite optional_parameters_value.
  cbn [fst]. unfold js_or. now rewrite Hu.
Qed.

Lemma target_user_default (ctx : context) (userID callback : arg) :
  truthy_arg userID = false \/ is_function userID = true ->
  target_user ctx userID callback = ctx_userID ctx.
Proof.
  unfold target_user. intros [H|H].
  - destruct userID as [u|k id]; [|discriminate].
    rewrite optional_parameters_value. cbn [fst truthy_arg] in *.
    unfold js_or. now rewrite H.
  - destruct userID as [u|k id].
    + destruct u; discriminate.
    + now rewrite optional_parameters_function.
Qed.

Lemma toggle_accepts_target (ctx : context) (b : bool)
    (userID callback : arg) :
  truthy (target_user ctx userID callback) = true ->
  toggle_rejects ctx (VBool b) (fst (optional_parameters userID callback))
  = false.
Proof.
  unfold target_user, toggle_rejects. intros ->. reflexivity.
Qed.

(** ** Optional parameters *)

(** C3, as the code has it.  In profileGuard and lockProfile a function in
    the second slot is the callback, whatever the third slot holds, and the
    user defaults to the current user of the session: every such call runs
    as the call with null as userID and the function as third argument;
    with a boolean and a session user its one request is about that user;
    and on success the function is called with (null, result), the result
    naming that user (and once more, with the error, when that call
    throws).  (reactPost has no optional parameter before its callback.) *)
Theorem function_in_userID_slot_is_the_callback (ctx : context)
    (env : environment) (k : fun_kind) (id : nat) (third : arg) :
  let me := ctx_userID ctx in
  (forall enable,
      profileGuard ctx env enable (AFun k id) third
      = profileGuard ctx env enable (AVal VNull) (AFun k id)
      /\ lockProfile ctx env enable (AFun k id) third
         = lockProfile ctx env enable (AVal VNull) (AFun k id))
  /\ (forall b,
      truthy me = true ->
      posts (final (profileGuard ctx env (VBool b) (AFun k id) third))
      = [profileGuard_request ctx env (VBool b) me]
      /\ posts (final (lockProfile ctx env (VBool b) (AFun k id) third))
         = [lockProfile_request ctx env (VBool b) me])
  /\ (forall b response,
      truthy me = true ->
      (forall q, respond env q = Resolved response) ->
      reports_no_error response = true ->
      calls (final (profileGuard ctx env (VBool b) (AFun k id) third))
      = success_calls env id (profileGuard_result (VBool b) me)
      /\ calls (final (lockProfile ctx env (VBool b) (AFun k id) third))
         = success_calls env id (lockProfile_result (VBool b) me)).
Proof.
  intros me. subst me.
  assert (Ht : target_user ctx (AFun k id) third = ctx_userID ctx).
  { apply target_user_default. right. destruct k; reflexivity. }
  assert (Hs : callback_slot (AFun k id) third = AFun k id).
  { unfold callback_slot. now rewrite optional_parameters_function. }
  assert (Ha : forall b, truthy (ctx_userID ctx) = true ->
             toggle_rejects ctx (VBool b)
               (fst (optional_parameters (AFun k id) third)) = false).
  { intros b Hme. apply toggle_accepts_target. now rewrite Ht. }
  split; [|split].
  - intros enable. split.
    + unfold profileGuard, profileGuard_body.
      now rewrite optional_parameters_function, optional_parameters_value.
    + unfold lockProfile, lockProfile_body.
      now rewrite optional_parameters_function, optional_parameters_value.
  - intros b Hme. split.
    + now rewrite profileGuard_posts, (Ha b Hme), Ht.
    + now rewrite lockProfile_posts, (Ha b Hme), Ht.
  - intros b response Hme Hresp Hok. split.
    + rewrite (profileGuard_accepted ctx env (VBool b) _ _ (Ha b Hme)), Ht, Hs.
      exact (proj1 (proj2 (transaction_success env _ _ _ _ _ _ response
                             (AFun k id) (Hresp _) Hok eq_refl))).
    + rewrite (lockProfile_accepted ctx env (VBool b) _ _ (Ha b Hme)), Ht, Hs.
      exact (proj1 (proj2 (transaction_success env _ _ _ _ _ _ response
                             (AFun k id) (Hresp _) Hok eq_refl))).
Qed.

Lemma function_in_userID_slot_is_the_callback_witness :
  (lockProfile alice accepting (VStr "yes") (AFun FkFunction 7)
     (AVal (VStr "100012345678"))
   = lockProfile alice accepting (VStr "yes") (AVal VNull) (AFun FkFunction 7))
  /\ posts (final (lockProfile alice accepting (VBool true) (AFun FkFunction 7)
                     (AVal (VStr "100012345678"))))
     = [lockProfile_request alice accepting (VBool true) (VStr "1000")]
  /\ calls (final (lockProfile alice accepting (VBool true) (AFun FkFunction 7)
                     (AVal (VStr "100012345678"))))
     = [(7, [VNull; lockProfile_result (VBool true) (VStr "1000")])].
Proof.
  pose proof (function_in_userID_slot_is_the_callback alice accepting
                FkFunction 7 (AVal (VStr "100012345678"))) as H.
  cbv zeta in H. destruct H as (H1 & H2 & H3).
  exact (conj (proj2 (H1 (VStr "yes")))
           (conj (proj2 (H2 true eq_refl))
              (proj2 (H3 true (VObj [("data", VObj [])]) eq_refl
                        (fun _ => eq_refl) eq_refl)))).
Defined.

(** C3 as stated fails for reactPost: a function in its second slot is taken
    for the reaction type, is never called, and the call ends in the
    TypeError of the missing toUpperCase. *)
Lemma reactPost_function_in_second_slot :
  reactPost alice accepting (VStr "123456789_987654321") (AFun FkFunction 7)
    (AVal VUndefined)
  = mkResult
      (Returns (Rejected (type_error "reactionType.toUpperCase is not a function")))
      init_world
  /\ calls (final (reactPost alice accepting (VStr "123456789_987654321")
                     (AFun FkFunction 7) (AVal VUndefined)))
     = [].
Proof. repeat split. Qed.

(** C6. lockProfile(true, U) with a user U other than the current user me of
    the session sends one request whose variables are the JSON text of an
    object with input.user_id = U and input.actor_id = me, two different
    fields with different values. *)
Theorem lockProfile_user_and_actor (ctx : context) (env : environment)
    (U me : string) (callback : arg) :
  ctx_userID ctx = VStr me ->
  truthy (VStr U) = true ->
  (U =? me) = false ->
  let r := lockProfile ctx env (VBool true) (AVal (VStr U)) callback in
  let variables :=
    lockProfile_variables ctx (VBool true) (VStr U) (threading_id env 0) in
  posts (final r) = [lockProfile_request ctx env (VBool true) (VStr U)]
  /\ lookup "variables"
       (req_form (lockProfile_request ctx env (VBool true) (VStr U)))
     = Some (of_option_string (JSON_stringify (engine env) variables))
  /\ path ["input"; "user_id"] variables = Some (VStr U)
  /\ path ["input"; "actor_id"] variables = Some (VStr me)
  /\ VStr U <> VStr me.
Proof.
  intros Hme HU Hne r variables. subst r variables.
  pose proof (target_user_explicit ctx (VStr U) callback HU) as Ht.
  repeat apply conj.
  - rewrite lockProfile_posts, toggle_accepts_target, Ht;
      [reflexivity | now rewrite Ht].
  - reflexivity.
  - reflexivity.
  - cbn [path lockProfile_variables lookup String.eqb Ascii.eqb Bool.eqb].
    now rewrite Hme.
  - intros E. injection E as ->. now rewrite String.eqb_refl in Hne.
Qed.

Lemma lockProfile_user_and_actor_witness :
  posts (final (lockProfile alice accepting (VBool true)
                  (AVal (VStr "100012345678")) (AFun FkFunction 7)))
  = [lockProfile_request alice accepting (VBool true) (VStr "100012345678")]
  /\ path ["input"; "user_id"]
       (lockProfile_variables alice (VBool true) (VStr "100012345678")
          (threading_id accepting 0))
     = Some (VStr "100012345678")
  /\ path ["input"; "actor_id"]
       (lockProfile_variables alice (VBool true) (VStr "100012345678")
          (threading_id accepting 0))
     = Some (VStr "1000").
Proof.
  pose proof (lockProfile_user_and_actor alice accepting "100012345678" "1000"
                (AFun FkFunction 7) eq_refl eq_refl eq_refl) as H.
  cbv zeta in H. destruct H as (H1 & _ & H2 & H3 & _).
  exact (conj H1 (conj H2 H3)).
Defined.

(** ** A failed check without a callback *)




(** * Further properties *)

(** ** One request *)



(** ** Errors and the log *)

Lemma reactPost_errors_logged (ctx : context) (env : environment)
    (postID : value) (reactionType : reaction_arg) (callback : arg)
    (e : value) :
  In e (errors_delivered (reactPost ctx env postID reactionType callback)) ->
  logged e (reactPost ctx env postID reactionType callback).
Proof.
  destruct (reactPost_accepts env postID reactionType) eqn:Ha.
  - rewrite (reactPost_accepted ctx env postID reactionType callback Ha).
    apply transaction_errors_logged.
  - destruct (reactPost_rejects env postID reactionType) eqn:Hrej.
    + rewrite (reactPost_refused ctx env postID reactionType callback Hrej).
      apply refusal_errors_logged.
    + destruct (reactPost_thrown ctx env postID reactionType callback Ha Hrej)
        as [x ->].
      intros [].
Qed.

Lemma profileGuard_errors_logged (ctx : context) (env : environment)
    (enable : value) (userID callback : arg) (e : value) :
  In e (errors_delivered (profileGuard ctx env enable userID callback)) ->
  logged e (profileGuard ctx env enable userID callback).
Proof.
  destruct (toggle_rejects ctx enable
              (fst (optional_parameters userID callback))) eqn:Hrej.
  - rewrite (profileGuard_refused ctx env enable userID callback Hrej).
    apply refusal_errors_logged.
  - rewrite (profileGuard_accepted ctx env enable userID callback Hrej).
    apply transaction_errors_logged.
Qed.

Lemma lockProfile_errors_logged (ctx : context) (env : environment)
    (enable : value) (userID callback : arg) (e : value) :
  In e (errors_delivered (lockProfile ctx env enable userID callback)) ->
  logged e (lockProfile ctx env enable userID callback).
Proof.
  destruct (toggle_rejects ctx enable
              (fst (optional_parameters userID callback))) eqn:Hrej.
  - rewrite (lockProfile_refused ctx env enable userID callback Hrej).
    apply refusal_errors_logged.
  - rewrite (lockProfile_accepted ctx env enable userID callback Hrej).
    apply transaction_errors_logged.
Qed.

Lemma profileGuard_legacy_errors_logged (ctx : context) (env : environment)
    (guard : value) (callback : arg) (e : value) :
  In e (errors_delivered (profileGuard_legacy ctx env guard callback)) ->
  logged e (profileGuard_legacy ctx env guard callback).
Proof.
  unfold logged, profileGuard_legacy, profileGuard_legacy_body.
  destruct (getType (AVal guard) =? "Boolean"); cbn [negb].
  2:{ js_run. logged_goal. }
  legacy_callback callback cb.
  legacy_cases env cb; logged_goal.
Qed.

(** X2. Every error an operation hands over, to a function of the caller
    or by rejecting its internal promise, was written to the diagnostic log
    by that run: no error is delivered unlogged. *)
Theorem delivered_errors_are_logged (ctx : context) (env : environment)
    (e : value) :
  (forall postID reactionType callback,
      In e (errors_delivered (reactPost ctx env postID reactionType callback)) ->
      logged e (reactPost ctx env postID reactionType callback))
  /\ (forall enable userID callback,
      In e (errors_delivered (profileGuard ctx env enable userID callback)) ->
      logged e (profileGuard ctx env enable userID callback))
  /\ (forall enable userID callback,
      In e (errors_delivered (lockProfile ctx env enable userID callback)) ->
      logged e (lockProfile ctx env enable userID callback))
  /\ (forall guard callback,
      In e (errors_delivered (profileGuard_legacy ctx env guard callback)) ->
      logged e (profileGuard_legacy ctx env guard callback)).
Proof.
  repeat apply conj; intros.
  - now apply reactPost_errors_logged.
  - now apply profileGuard_errors_logged.
  - now apply lockProfile_errors_logged.
  - now apply profileGuard_legacy_errors_logged.
Qed.

Lemma delivered_errors_are_logged_witness :
  logged
    (remote_error plain_runtime
       (VObj [("errors", VArr [VObj [("message", VStr "boom")]])]))
    (lockProfile alice failing (VBool true) (AVal VUndefined)
       (AFun FkFunction 7)).
Proof.
  apply (proj1 (proj2 (proj2
           (delivered_errors_are_logged alice failing
              (remote_error plain_runtime
                 (VObj [("errors", VArr [VObj [("message", VStr "boom")]])]))))) ).
  vm_compute. left. reflexivity.
Defined.

(** ** The caller's function and the promise *)




(** ** Failures after the request *)



(** ** A response that is missing *)



(** ** Local checks *)

Lemma reactPost_refused_with (ctx : context) (env : environment)
    (postID : value) (reactionType : reaction_arg) (callback : arg) :
  reactPost_rejects env postID reactionType = true ->
  callable_or_absent callback = true ->
  refused_with env "reactPost" (reactPost_complaint postID reactionType)
    callback (reactPost ctx env postID reactionType callback).
Proof.
  intros Hrej Hcb.
  rewrite (reactPost_refused ctx env postID reactionType callback Hrej).
  now apply refusal_refused_with.
Qed.

(** X6. reactPost checks the postID first and the reaction type second:
    without a postID (undefined, null, the empty string, 0) it answers
    "Post ID is required" whatever the reaction type is; with a postID and
    without a reaction type it answers "Reaction type is required".  In
    both cases nothing is sent and the Error is logged once. *)
Theorem reactPost_missing_arguments (ctx : context) (env : environment)
    (postID : value) (reactionType : reaction_arg) (callback : arg) :
  callable_or_absent callback = true ->
  (truthy postID = false ->
   refused_with env "reactPost" "reactPost: Post ID is required" callback
     (reactPost ctx env postID reactionType callback))
  /\ (truthy postID = true ->
      truthy_reaction reactionType = false ->
      refused_with env "reactPost" "reactPost: Reaction type is required"
        callback (reactPost ctx env postID reactionType callback)).
Proof.
  intros Hcb. split.
  - intros Hp.
    assert (Hrej : reactPost_rejects env postID reactionType = true).
    { unfold reactPost_rejects. now rewrite Hp. }
    pose proof (reactPost_refused_with ctx env postID reactionType callback
                  Hrej Hcb) as H.
    unfold reactPost_complaint in H. now rewrite Hp in H.
  - intros Hp Hr.
    assert (Hrej : reactPost_rejects env postID reactionType = true).
    { unfold reactPost_rejects. now rewrite Hp, Hr. }
    pose proof (reactPost_refused_with ctx env postID reactionType callback
                  Hrej Hcb) as H.
    unfold reactPost_complaint in H. now rewrite Hp, Hr in H.
Qed.

Lemma reactPost_missing_arguments_witness :
  refused_with accepting "reactPost" "reactPost: Post ID is required"
    (AFun FkFunction 7)
    (reactPost alice accepting VUndefined (AVal VUndefined) (AFun FkFunction 7)).
Proof.
  exact (proj1 (reactPost_missing_arguments alice accepting VUndefined
                  (AVal VUndefined) (AFun FkFunction 7) eq_refl) eq_refl).
Defined.

Lemma toggle_rejects_missing_user (ctx : context) (b : bool)
    (userID callback : arg) :
  truthy (target_user ctx userID callback) = false ->
  toggle_rejects ctx (VBool b) (fst (optional_parameters userID callback))
  = true.
Proof. unfold target_user, toggle_rejects. intros ->. reflexivity. Qed.

(** X7. profileGuard and lockProfile called with a boolean but with no user
    to act on (no truthy userID argument and no current user in the
    session) answer "User ID not found. Please ensure you are logged in.":
    nothing is sent and the Error is logged once. *)
Theorem missing_user_is_refused (ctx : context) (env : environment)
    (b : bool) (userID callback : arg) :
  truthy (target_user ctx userID callback) = false ->
  callable_or_absent (callback_slot userID callback) = true ->
  refused_with env "profileGuard"
    "profileGuard: User ID not found. Please ensure you are logged in."
    (callback_slot userID callback)
    (profileGuard ctx env (VBool b) userID callback)
  /\ refused_with env "lockProfile"
       "lockProfile: User ID not found. Please ensure you are logged in."
       (callback_slot userID callback)
       (lockProfile ctx env (VBool b) userID callback).
Proof.
  intros Ht Hcb.
  pose proof (toggle_rejects_missing_user ctx b userID callback Ht) as Hrej.
  split.
  - rewrite (profileGuard_refused ctx env (VBool b) userID callback Hrej).
    now apply refusal_refused_with.
  - rewrite (lockProfile_refused ctx env (VBool b) userID callback Hrej).
    now apply refusal_refused_with.
Qed.

Lemma missing_user_is_refused_witness :
  refused_with accepting "profileGuard"
    "profileGuard: User ID not found. Please ensure you are logged in."
    (AFun FkFunction 7)
    (profileGuard nobody accepting (VBool true) (AFun FkFunction 7)
       (AVal VUndefined))
  /\ refused_with accepting "lockProfile"
       "lockProfile: User ID not found. Please ensure you are logged in."
       (AFun FkFunction 7)
       (lockProfile nobody accepting (VBool true) (AFun FkFunction 7)
          (AVal VUndefined)).
Proof.
  exact (missing_user_is_refused nobody accepting true (AFun FkFunction 7)
           (AVal VUndefined) eq_refl eq_refl).
Defined.

(** X8. lockProfile refuses a first argument that is not a boolean before
    it looks for a user: it answers "First parameter must be a boolean
    (true to lock, false to unlock)", sends nothing and logs the Error
    once, whether or not a user is known. *)
Theorem lockProfile_non_boolean_is_refused (ctx : context)
    (env : environment) (enable : value) (userID callback : arg) :
  (typeof enable =? "boolean") = false ->
  callable_or_absent (callback_slot userID callback) = true ->
  refused_with env "lockProfile"
    "lockProfile: First parameter must be a boolean (true to lock, false to unlock)"
    (callback_slot userID callback)
    (lockProfile ctx env enable userID callback).
Proof.
  intros Hb Hcb.
  assert (Hrej : toggle_rejects ctx enable
                   (fst (optional_parameters userID callback)) = true).
  { unfold toggle_rejects. now rewrite Hb. }
  rewrite (lockProfile_refused ctx env enable userID callback Hrej).
  assert (Hm : toggle_complaint "lockProfile" "true to lock, false to unlock"
                 enable
               = "lockProfile: First parameter must be a boolean (true to lock, false to unlock)").
  { unfold toggle_complaint. now rewrite Hb. }
  rewrite Hm. now apply refusal_refused_with.
Qed.

Lemma lockProfile_non_boolean_is_refused_witness :
  refused_with accepting "lockProfile"
    "lockProfile: First parameter must be a boolean (true to lock, false to unlock)"
    (AVal VUndefined)
    (lockProfile nobody accepting (VNum 1) (AVal VUndefined) (AVal VUndefined)).
Proof.
  exact (lockProfile_non_boolean_is_refused nobody accepting (VNum 1)
           (AVal VUndefined) (AVal VUndefined) eq_refl eq_refl).
Defined.

(** ** Success *)



(** What profileGuard and lockProfile can deliver as a result. *)
Lemma profileGuard_delivered (ctx : context) (env : environment)
    (enable : value) (userID callback : arg) (v : value) :
  In v (results_delivered (profileGuard ctx env enable userID callback)) ->
  reports_success v = true ->
  v = profileGuard_result enable (target_user ctx userID callback)
  /\ exists b, enable = VBool b.
Proof.
  destruct (toggle_rejects ctx enable
              (fst (optional_parameters userID callback))) eqn:Hrej.
  - rewrite (profileGuard_refused ctx env enable userID callback Hrej).
    intros Hin Hok. destruct (refusal_delivered _ _ _ _ _ Hin Hok).
  - rewrite (profileGuard_accepted ctx env enable userID callback Hrej).
    intros Hin Hok. split.
    + exact (transaction_delivered _ _ _ _ _ _ _ _ _ Hin Hok).
    + exact (proj1 (toggle_accepts _ _ _ Hrej)).
Qed.

Lemma lockProfile_delivered (ctx : context) (env : environment)
    (enable : value) (userID callback : arg) (v : value) :
  In v (results_delivered (lockProfile ctx env enable userID callback)) ->
  reports_success v = true ->
  v = lockProfile_result enable (target_user ctx userID callback)
  /\ exists b, enable = VBool b.
Proof.
  destruct (toggle_rejects ctx enable
              (fst (optional_parameters userID callback))) eqn:Hrej.
  - rewrite (lockProfile_refused ctx env enable userID callback Hrej).
    intros Hin Hok. destruct (refusal_delivered _ _ _ _ _ Hin Hok).
  - rewrite (lockProfile_accepted ctx env enable userID callback Hrej).
    intros Hin Hok. split.
    + exact (transaction_delivered _ _ _ _ _ _ _ _ _ Hin Hok).
    + exact (proj1 (toggle_accepts _ _ _ Hrej)).
Qed.

(** X10. Whatever the reworked profileGuard delivers as a successful
    result is {success: true, enabled, userID, message}: enabled is the
    boolean it was called with, userID the user the request was about, and
    the message says "enabled" for true and "disabled" for false. *)
Theorem profileGuard_result_shape (ctx : context) (env : environment)
    (enable : value) (userID callback : arg) (v : value) :
  In v (results_delivered (profileGuard ctx env enable userID callback)) ->
  reports_success v = true ->
  exists b,
    enable = VBool b
    /\ v = VObj [("success", VBool true);
                 ("enabled", VBool b);
                 ("userID", target_user ctx userID callback);
                 ("message",
                    VStr (if b
                          then "Profile picture guard enabled successfully"
                          else "Profile picture guard disabled successfully"))].
Proof.
  intros Hin Hok.
  destruct (profileGuard_delivered ctx env enable userID callback v Hin Hok)
    as [-> [b ->]].
  exists b. split; [reflexivity|]. destruct b; reflexivity.
Qed.

Lemma profileGuard_result_shape_witness :
  exists b,
    VBool false = VBool b
    /\ profileGuard_result (VBool false) (VStr "1000")
       = VObj [("success", VBool true);
               ("enabled", VBool b);
               ("userID", target_user alice (AVal VUndefined) (AVal VUndefined));
               ("message",
                  VStr (if b
                        then "Profile picture guard enabled successfully"
                        else "Profile picture guard disabled successfully"))].
Proof.
  apply (profileGuard_result_shape alice accepting (VBool false)
           (AVal VUndefined) (AVal VUndefined)).
  - vm_compute. left. reflexivity.
  - reflexivity.
Defined.

(** X11. Whatever lockProfile delivers as a successful result is
    {success: true, locked, userID, message, note}: locked is the boolean
    it was called with, userID the user the request was about, and message
    and note tell a lock for true and an unlock for false. *)
Theorem lockProfile_result_shape (ctx : context) (env : environment)
    (enable : value) (userID callback : arg) (v : value) :
  In v (results_delivered (lockProfile ctx env enable userID callback)) ->
  reports_success v = true ->
  exists b,
    enable = VBool b
    /\ v = VObj [("success", VBool true);
                 ("locked", VBool b);
                 ("userID", target_user ctx userID callback);
                 ("message",
                    VStr (if b then "Profile locked successfully"
                          else "Profile unlocked successfully"));
                 ("note",
                    VStr (if b
                          then "Your profile is now locked. Only friends can see your posts and photos."
                          else "Your profile is now unlocked. Your privacy settings control who can see your content."))].
Proof.
  intros Hin Hok.
  destruct (lockProfile_delivered ctx env enable userID callback v Hin Hok)
    as [-> [b ->]].
  exists b. split; [reflexivity|]. destruct b; reflexivity.
Qed.

Lemma lockProfile_result_shape_witness :
  exists b,
    VBool true = VBool b
    /\ lockProfile_result (VBool true) (VStr "1000")
       = VObj [("success", VBool true);
               ("locked", VBool b);
               ("userID", target_user alice (AVal VUndefined) (AVal VUndefined));
               ("message",
                  VStr (if b then "Profile locked successfully"
                        else "Profile unlocked successfully"));
               ("note",
                  VStr (if b
                        then "Your profile is now locked. Only friends can see your posts and photos."
                        else "Your profile is now unlocked. Your privacy settings control who can see your content."))].
Proof.
  apply (lockProfile_result_shape alice accepting (VBool true)
           (AVal VUndefined) (AVal VUndefined)).
  - vm_compute. left. reflexivity.
  - reflexivity.
Defined.

(** ** Whom a request is about *)



(** X13. lockProfile without a userID argument (a falsy one, or the
    callback in its place) locks the profile of the session's current
    user: the one request it sends has user_id and actor_id both equal to
    the current user. *)
Theorem lockProfile_defaults_to_current_user (ctx : context)
    (env : environment) (b : bool) (userID callback : arg) :
  truthy_arg userID = false \/ is_function userID = true ->
  truthy (ctx_userID ctx) = true ->
  let r := lockProfile ctx env (VBool b) userID callback in
  let me := ctx_userID ctx in
  let variables := lockProfile_variables ctx (VBool b) me (threading_id env 0) in
  posts (final r) = [lockProfile_request ctx env (VBool b) me]
  /\ lookup "variables" (req_form (lockProfile_request ctx env (VBool b) me))
     = Some (of_option_string (JSON_stringify (engine env) variables))
  /\ path ["input"; "user_id"] variables = Some me
  /\ path ["input"; "actor_id"] variables = Some me
  /\ path ["input"; "is_locked"] variables = Some (VBool b).
Proof.
  intros Hu Hme r me variables. subst r me variables.
  pose proof (target_user_default ctx userID callback Hu) as Ht.
  repeat apply conj; try reflexivity.
  rewrite lockProfile_posts, toggle_accepts_target, Ht;
    [reflexivity | now rewrite Ht].
Qed.

Lemma lockProfile_defaults_to_current_user_witness :
  posts (final (lockProfile alice accepting (VBool false) (AFun FkFunction 7)
                  (AVal VUndefined)))
  = [lockProfile_request alice accepting (VBool false) (VStr "1000")]
  /\ path ["input"; "user_id"]
       (lockProfile_variables alice (VBool false) (VStr "1000")
          (threading_id accepting 0))
     = Some (VStr "1000").
Proof.
  pose proof (lockProfile_defaults_to_current_user alice accepting false
                (AFun FkFunction 7) (AVal VUndefined) (or_intror eq_refl)
                eq_refl) as H.
  cbv zeta in H. destruct H as (H1 & _ & H2 & _).
  exact (conj H1 H2).
Defined.

(** ** The access token of the reworked profileGuard *)

Lemma includes_cons (sep : string) (c : ascii) (s : string) :
  includes sep (String c s) = prefix sep (String c s) || includes sep s.
Proof.
  unfold includes. cbn [after_first].
  destruct (prefix sep (String c s)); reflexivity.
Qed.

Lemma prefix_semicolon (c : ascii) (s t : string) :
  prefix ";" (String c s) = prefix ";" (String c t).
Proof.
  cbn [prefix]. destruct (ascii_dec ";" c); [|reflexivity].
  destruct s, t; reflexivity.
Qed.

(** What is cut before the first [;] holds no [;]. *)
Lemma before_first_semicolon (s : string) :
  includes ";" (before_first ";" s) = false.
Proof.
  induction s as [|c s IH]; [reflexivity|].
  cbn [before_first].
  destruct (prefix ";" (String c s)) eqn:Hp; [reflexivity|].
  rewrite includes_cons, IH.
  rewrite (prefix_semicolon c (before_first ";" s) s), Hp. reflexivity.
Qed.

Lemma find_access_token_none (cookies : list string) :
  Forall (fun c => includes "access_token=" c = false) cookies ->
  find_access_token cookies = None.
Proof.
  induction 1 as [|c cookies Hc _ IH]; [reflexivity|].
  cbn [find_access_token]. now rewrite Hc.
Qed.

Lemma find_access_token_some (cookies : list string) (t : string) :
  find_access_token cookies = Some t ->
  includes ";" t = false
  /\ exists cookie,
       In cookie cookies /\ includes "access_token=" cookie = true.
Proof.
  induction cookies as [|c cookies IH]; [discriminate|].
  cbn [find_access_token].
  destruct (includes "access_token=" c) eqn:Hc.
  - destruct (after_first "access_token=" c) as [tl|]; [|discriminate].
    intros E. injection E as <-. split.
    + apply before_first_semicolon.
    + exists c. split; [now left | exact Hc].
  - intros E. destruct (IH E) as [H1 (cookie & H2 & H3)]. split; [exact H1|].
    exists cookie. split; [now right | exact H3].
Qed.

(** Cookies without the marker are passed over. *)
Lemma find_access_token_skip (before rest : list string) :
  Forall (fun c => includes "access_token=" c = false) before ->
  find_access_token (before ++ rest)%list = find_access_token rest.
Proof.
  induction 1 as [|c before Hc _ IH]; [reflexivity|].
  cbn [app find_access_token]. now rewrite Hc.
Qed.

(** X14. The reworked profileGuard adds an Authorization header only for an
    access token found in the cookies: without a cookie whose text includes
    "access_token=" there is no header; any header it sends is
    "Authorization: OAuth <token>" with a non-empty token that holds no
    ";", taken from a cookie that includes the marker; and the first cookie
    that includes the marker decides alone: the cookies before it, which
    do not include the marker, are passed over, and the cookies after it
    are not looked at. *)
Theorem access_token_header (ctx : context) :
  (Forall (fun c => includes "access_token=" c = false) (ctx_jar ctx) ->
   profileGuard_headers ctx = [])
  /\ (forall h,
      In h (profileGuard_headers ctx) ->
      profileGuard_headers ctx = [h]
      /\ exists token,
           h = ("Authorization", "OAuth " ++ token)
           /\ token <> ""
           /\ includes ";" token = false
           /\ exists cookie,
                In cookie (ctx_jar ctx)
                /\ includes "access_token=" cookie = true)
  /\ (forall (before : list string) cookie rest u,
      ctx_jar ctx = (before ++ cookie :: rest)%list ->
      Forall (fun c => includes "access_token=" c = false) before ->
      includes "access_token=" cookie = true ->
      profileGuard_headers ctx
      = profileGuard_headers (mkContext u [cookie])).
Proof.
  unfold profileGuard_headers. repeat apply conj.
  - intros H. now rewrite (find_access_token_none _ H).
  - intros h.
    destruct (find_access_token (ctx_jar ctx)) as [t|] eqn:Ht;
      [|contradiction].
    destruct (String.eqb_spec t "") as [->|Hne]; [contradiction|].
    intros [<-|[]]. split; [reflexivity|].
    destruct (find_access_token_some _ _ Ht) as [H1 H2].
    exists t. repeat split; assumption.
  - intros before cookie rest u -> Hb Hc.
    rewrite (find_access_token_skip before _ Hb).
    cbn [ctx_jar find_access_token].
    rewrite Hc. destruct (after_first "access_token=" cookie); reflexivity.
Qed.

Lemma access_token_header_witness :
  (profileGuard_headers alice = [("Authorization", "OAuth TOK")]
   /\ exists token,
        ("Authorization", "OAuth TOK") = ("Authorization", "OAuth " ++ token)
        /\ token <> ""
        /\ includes ";" token = false
        /\ exists cookie,
             In cookie (ctx_jar alice)
             /\ includes "access_token=" cookie = true)
  /\ profileGuard_headers alice
     = profileGuard_headers
         (mkContext VUndefined ["sb=1; access_token=TOK; x"]).
Proof.
  split.
  - apply (proj1 (proj2 (access_token_header alice))).
    vm_compute. left. reflexivity.
  - apply (proj2 (proj2 (access_token_header alice))
             ["c_user=1000; Path=/"] "sb=1; access_token=TOK; x" []).
    + reflexivity.
    + repeat constructor.
    + reflexivity.
Defined.

(** ** Reaction names and feedback identifiers *)

(** X15. reactPost sees a string given as reaction type only through its
    upper-case form and through its being empty or not: two strings with
    the same upper-case form, both empty or both not (Haha, HAHA, haHA),
    make the whole call run alike: the same request, log, callback
    arguments and promise. *)
Theorem reactPost_is_case_insensitive (ctx : context) (env : environment)
    (postID : value) (s1 s2 : string) (callback : arg) :
  toUpperCase (engine env) s1 = toUpperCase (engine env) s2 ->
  (s1 =? "") = (s2 =? "") ->
  reactPost ctx env postID (AVal (VStr s1)) callback
  = reactPost ctx env postID (AVal (VStr s2)) callback.
Proof.
  intros E Hn. unfold reactPost, reactPost_body.
  cbn [truthy_reaction truthy_arg truthy call_toUpperCase].
  now rewrite E, Hn.
Qed.

Lemma reactPost_is_case_insensitive_witness :
  reactPost alice accepting (VStr "123456789_987654321") (AVal (VStr "Haha"))
    (AFun FkFunction 7)
  = reactPost alice accepting (VStr "123456789_987654321")
      (AVal (VStr "haHA")) (AFun FkFunction 7).
Proof.
  exact (reactPost_is_case_insensitive alice accepting
           (VStr "123456789_987654321") "Haha" "haHA" (AFun FkFunction 7)
           eq_refl eq_refl).
Defined.

Lemma base64_encode_injective (s t : string) :
  base64_encode s = base64_encode t -> s = t.
Proof.
  intros E. pose proof (base64_round_trip s) as Hs.
  rewrite E, base64_round_trip in Hs. now injection Hs.
Qed.

(** X16. Different posts never share a feedback identifier: when the
    requests reactPost builds for two postID strings carry the same
    feedback_id, the two postIDs are equal. *)
Theorem feedback_id_is_injective (ctx : context) (env : environment)
    (p q : string) (v1 v2 : value) (a1 a2 b1 b2 : string) :
  path ["input"; "feedback_id"]
    (reactPost_variables ctx env (VStr p) v1 a1 b1)
  = path ["input"; "feedback_id"]
      (reactPost_variables ctx env (VStr q) v2 a2 b2) ->
  p = q.
Proof.
  cbn [path reactPost_variables lookup String.eqb Ascii.eqb Bool.eqb to_string].
  intros E. injection E as E. apply base64_encode_injective in E.
  exact E.
Qed.

Lemma feedback_id_is_injective_witness :
  "123456789_987654321" = "123456789_987654321".
Proof.
  apply (feedback_id_is_injective alice accepting "123456789_987654321"
           "123456789_987654321" (VNum 1) (VNum 2) "a" "b" "c" "d").
  reflexivity.
Defined.

(** ** A callback that is not a function *)



(** ** The legacy profileGuard without a callback *)

(** X18. The legacy profileGuard called with a boolean and no callback
    never rejects: whatever the transport answers, its promise is
    fulfilled with undefined and no function of the caller is called; a
    failure of the transport is only written to the log. *)
Theorem profileGuard_legacy_swallows_errors (ctx : context)
    (env : environment) (b : bool) :
  let r := profileGuard_legacy ctx env (VBool b) (AVal VUndefined) in
  completed r = Returns (Fulfilled VUndefined)
  /\ calls (final r) = []
  /\ errors_delivered r = []
  /\ (forall e,
      respond env (profileGuard_legacy_request ctx env (VBool b)) = Failed e ->
      logs (final r) = [LogError "setProfileGuard" e]).
Proof.
  intros r. subst r. unfold profileGuard_legacy, profileGuard_legacy_body,
    profileGuard_legacy_request.
  cbn [getType String.eqb Ascii.eqb Bool.eqb negb].
  js_run. split_response env; js_run.
  - destruct (get_prop response "err") as [x|]; js_run.
    + destruct (truthy x); js_run; repeat split; discriminate.
    + repeat split; discriminate.
  - repeat split. intros e E. now injection E as <-.
Qed.

Lemma profileGuard_legacy_swallows_errors_witness :
  logs (final (profileGuard_legacy alice
                 (offline (VError "Error" "ECONNRESET")) (VBool true)
                 (AVal VUndefined)))
  = [LogError "setProfileGuard" (VError "Error" "ECONNRESET")].
Proof.
  exact (proj2 (proj2 (proj2
           (profileGuard_legacy_swallows_errors alice
              (offline (VError "Error" "ECONNRESET")) true)))
           (VError "Error" "ECONNRESET") eq_refl).
Defined.
